(** * Wallet-Tracker backend: aggregation logic of [server/index.js]

    A shallow embedding of the balance / transaction aggregation code of the
    Node.js backend, and the properties of its written specification.

    Conventions of the embedding
    - a JavaScript [Number] is an IEEE-754 binary64 value: Rocq's primitive
      [float], with the same round-to-nearest-even arithmetic;
    - a [BigInt] is a [Z];
    - a value that may be [undefined] or [null] is an [option];
    - [CHAIN_INFO] and [process.env] are objects used as maps: [gmap]s with
      string keys (and, for the object literal, the properties it inherits
      from [Object.prototype]);
    - upstream HTTP services are a [world]: what each endpoint answers.  The
      code awaits its calls one after the other, so a handler is a function
      of the world that also records the calls it makes, and a rejected
      promise is a thrown exception;
    - a decoded JSON payload is a record whose fields have the types of the
      provider's schema, each of them possibly absent;
    - a reply is the status code and the object handed to [JSON.stringify];
      headers and the serialisation itself are left out. *)

From Stdlib Require Import ZArith List Bool Ascii String Lia.
From Stdlib Require Import PrimFloat SpecFloat FloatOps.
From stdpp Require Import base option gmap strings.
Import ListNotations.

Local Open Scope string_scope.
Local Open Scope Z_scope.

(** ** JavaScript numbers, BigInts and the string conversions the code uses *)

Module JS.

(** Exceptions (and rejected promises). *)
Inductive error :=
| TypeError
| SyntaxError
| RangeError
| Error (msg : string).

Inductive result (A : Type) :=
| Returned (a : A)
| Thrown (e : error).
Arguments Returned {A} a.
Arguments Thrown {A} e.

(** [Number(b)] for a BigInt [b]: the nearest double, ties to even. *)
Definition Number_of_BigInt (z : Z) : float :=
  SF2Prim (binary_normalize prec emax z 0 false).

(** The double nearest to [n / d], for [0 <= n] and [0 < d].  The quotient
    is taken with at least 63 significant bits and a sticky last bit, so
    that the one rounding of [binary_normalize] is the correct one. *)
Definition round_ratio (n d : Z) : float :=
  if n =? 0 then 0%float
  else
    let s := Z.max 0 (Z.log2 d - Z.log2 n + 64) in
    let q := (n * 2 ^ s) / d in
    let r := (n * 2 ^ s) mod d in
    let m := 2 * q + (if r =? 0 then 0 else 1) in
    SF2Prim (binary_normalize prec emax m (- (s + 1)) false).

(** [10 ** d] for an integral [d].  ECMAScript asks for an approximation
    of the power; the model takes the nearest double, which is the exact
    power for [0 <= d <= 22]. *)
Definition pow10 (d : Z) : float :=
  if 0 <=? d then Number_of_BigInt (10 ^ d) else round_ratio 1 (10 ^ (- d)).

(** Strings are sequences of ASCII characters. *)
Definition is_whitespace (c : ascii) : bool :=
  let n := N_of_ascii c in
  ((9 <=? n) && (n <=? 13))%N || (n =? 32)%N.

Fixpoint trim_start (l : list ascii) : list ascii :=
  match l with
  | c :: l' => if is_whitespace c then trim_start l' else l
  | [] => []
  end.

Definition trim (l : list ascii) : list ascii :=
  rev (trim_start (rev (trim_start l))).

Definition digit_value (c : ascii) : option Z :=
  let n := Z.of_N (N_of_ascii c) in
  if (48 <=? n) && (n <=? 57) then Some (n - 48)
  else if (97 <=? n) && (n <=? 122) then Some (n - 87)
  else if (65 <=? n) && (n <=? 90) then Some (n - 55)
  else None.

Definition digit_in (radix : Z) (c : ascii) : option Z :=
  match digit_value c with
  | Some d => if d <? radix then Some d else None
  | None => None
  end.

(** The value of [l] when all of it is digits of the radix. *)
Fixpoint digits_value (radix acc : Z) (l : list ascii) : option Z :=
  match l with
  | [] => Some acc
  | c :: l' =>
      match digit_in radix c with
      | Some d => digits_value radix (acc * radix + d) l'
      | None => None
      end
  end.

Definition nonempty_digits (radix : Z) (l : list ascii) : option Z :=
  match l with
  | [] => None
  | _ => digits_value radix 0 l
  end.

(** [0x], [0o] and [0b] literals. *)
Definition radix_literal (l : list ascii) : option (Z * list ascii) :=
  match l with
  | "0"%char :: x :: rest =>
      if (Ascii.eqb x "x" || Ascii.eqb x "X")%char then Some (16, rest)
      else if (Ascii.eqb x "o" || Ascii.eqb x "O")%char then Some (8, rest)
      else if (Ascii.eqb x "b" || Ascii.eqb x "B")%char then Some (2, rest)
      else None
  | _ => None
  end.

(** [BigInt(s)] for a string [s] (StringToBigInt). *)
Definition BigInt (s : string) : result Z :=
  let t := trim (list_ascii_of_string s) in
  match t with
  | [] => Returned 0
  | _ =>
      match radix_literal t with
      | Some (radix, rest) =>
          match nonempty_digits radix rest with
          | Some v => Returned v
          | None => Thrown SyntaxError
          end
      | None =>
          let '(sign, body) :=
            match t with
            | "-"%char :: b => (-1, b)
            | "+"%char :: b => (1, b)
            | _ => (1, t)
            end in
          match nonempty_digits 10 body with
          | Some v => Returned (sign * v)
          | None => Thrown SyntaxError
          end
      end
  end.

(** Decimal literals (StrDecimalLiteral), read from the front of a string. *)
Inductive numeral :=
| NInfinity
| NDecimal (mantissa exponent : Z).

Fixpoint take_digits (l : list ascii) (acc n : Z) : Z * Z * list ascii :=
  match l with
  | c :: l' =>
      match digit_in 10 c with
      | Some d => take_digits l' (acc * 10 + d) (n + 1)
      | None => (acc, n, l)
      end
  | [] => (acc, n, [])
  end.

Fixpoint strip_prefix (p l : list ascii) : option (list ascii) :=
  match p, l with
  | [], _ => Some l
  | a :: p', b :: l' => if Ascii.eqb a b then strip_prefix p' l' else None
  | _ :: _, [] => None
  end.

Definition scan_exponent (l : list ascii) : Z * list ascii :=
  match l with
  | e :: l1 =>
      if (Ascii.eqb e "e" || Ascii.eqb e "E")%char then
        let '(sign, l2) :=
          match l1 with
          | "+"%char :: t => (1, t)
          | "-"%char :: t => (-1, t)
          | _ => (1, l1)
          end in
        let '(v, n, l3) := take_digits l2 0 0 in
        if n =? 0 then (0, l) else (sign * v, l3)
      else (0, l)
  | [] => (0, [])
  end.

Definition scan_magnitude (l : list ascii) : option (numeral * list ascii) :=
  match strip_prefix (list_ascii_of_string "Infinity") l with
  | Some rest => Some (NInfinity, rest)
  | None =>
      let '(ip, ni, l1) := take_digits l 0 0 in
      let '(mant, nf, l2) :=
        match l1 with
        | "."%char :: t => take_digits t ip 0
        | _ => (ip, 0, l1)
        end in
      if ni + nf =? 0 then None
      else
        let '(e, l3) := scan_exponent l2 in
        Some (NDecimal mant (e - nf), l3)
  end.

Definition scan_signed (l : list ascii)
  : option (bool * numeral * list ascii) :=
  let '(negative, body) :=
    match l with
    | "-"%char :: b => (true, b)
    | "+"%char :: b => (false, b)
    | _ => (false, l)
    end in
  match scan_magnitude body with
  | Some (n, rest) => Some (negative, n, rest)
  | None => None
  end.

Definition numeral_value (negative : bool) (n : numeral) : float :=
  let magnitude :=
    match n with
    | NInfinity => infinity
    | NDecimal m e =>
        if 0 <=? e then Number_of_BigInt (m * 10 ^ e)
        else round_ratio m (10 ^ (- e))
    end in
  if negative then (- magnitude)%float else magnitude.

(** [parseFloat(s)]: the longest decimal literal at the front of [s]. *)
Definition parseFloat (s : string) : float :=
  match scan_signed (trim_start (list_ascii_of_string s)) with
  | Some (negative, n, _) => numeral_value negative n
  | None => nan
  end.

(** [Number(s)] for a string [s] (StringToNumber): all of [s] is a literal. *)
Definition Number_of_string (s : string) : float :=
  let t := trim (list_ascii_of_string s) in
  match t with
  | [] => 0%float
  | _ =>
      match radix_literal t with
      | Some (radix, rest) =>
          match nonempty_digits radix rest with
          | Some v => Number_of_BigInt v
          | None => nan
          end
      | None =>
          match scan_signed t with
          | Some (negative, n, []) => numeral_value negative n
          | _ => nan
          end
      end
  end.

Definition isNaN (x : float) : bool := is_nan x.

(** Truthiness ([ToBoolean]), by type. *)
Class Truthy (A : Type) := truthy : A -> bool.
#[global] Instance truthy_bool : Truthy bool := fun b => b.
#[global] Instance truthy_string : Truthy string :=
  fun s => negb (String.eqb s "").
#[global] Instance truthy_float : Truthy float :=
  fun x => negb (PrimFloat.eqb x 0 || is_nan x).
#[global] Instance truthy_Z : Truthy Z := fun z => negb (z =? 0).
#[global] Instance truthy_option {A} `{Truthy A} : Truthy (option A) :=
  fun o => match o with Some a => truthy a | None => false end.

(** [o || d], where [o] may be absent. *)
Definition or_else {A} `{Truthy A} (o : option A) (d : A) : A :=
  match o with
  | Some a => if truthy a then a else d
  | None => d
  end.

(** [a || b], both possibly absent. *)
Definition or_option {A} `{Truthy A} (a b : option A) : option A :=
  if truthy a then a else b.

End JS.

Export JS.

(** ** Blockchain configuration *)

(** [chainId] is a number for the EVM chains and the string ['solana']. *)
Inductive chain_id :=
| NumericChainId (n : Z)
| NamedChainId (s : string).

Record chain := {
  chainId : chain_id;
  rpc : string;
  nativeSymbol : string;
  coinGeckoId : string;
  moralisChain : string;
}.

Definition CHAIN_INFO : gmap string chain :=
  list_to_map [
    ("ethereum",
      {| chainId := NumericChainId 1;
         rpc := "https://cloudflare-eth.com";
         nativeSymbol := "ETH";
         coinGeckoId := "ethereum";
         moralisChain := "eth" |});
    ("polygon",
      {| chainId := NumericChainId 137;
         rpc := "https://polygon-rpc.com";
         nativeSymbol := "MATIC";
         coinGeckoId := "polygon";
         moralisChain := "polygon" |});
    ("binance",
      {| chainId := NumericChainId 56;
         rpc := "https://bsc-dataseed.binance.org";
         nativeSymbol := "BNB";
         coinGeckoId := "binancecoin";
         moralisChain := "bsc" |});
    ("base",
      {| chainId := NumericChainId 8453;
         rpc := "https://mainnet.base.org";
         nativeSymbol := "ETH";
         coinGeckoId := "ethereum";
         moralisChain := "base" |});
    ("solana",
      {| chainId := NamedChainId "solana";
         rpc := "https://api.mainnet-beta.solana.com";
         nativeSymbol := "SOL";
         coinGeckoId := "solana";
         moralisChain := "solana" |})
  ].

(** [CHAIN_INFO] is an object literal: [CHAIN_INFO[key]] finds the object's
    own properties and, failing that, the properties of [Object.prototype]
    (functions, and for [__proto__] the prototype object itself). *)
Definition Object_prototype_properties : list string :=
  [ "constructor"; "__defineGetter__"; "__defineSetter__"; "hasOwnProperty";
    "__lookupGetter__"; "__lookupSetter__"; "isPrototypeOf";
    "propertyIsEnumerable"; "toString"; "valueOf"; "__proto__";
    "toLocaleString" ].

Inductive property (A : Type) :=
| Own (a : A)
| Inherited (name : string)
| Undefined.
Arguments Own {A} a.
Arguments Inherited {A} name.
Arguments Undefined {A}.

Definition get_property {A} (o : gmap string A) (key : string) : property A :=
  match o !! key with
  | Some a => Own a
  | None =>
      if existsb (String.eqb key) Object_prototype_properties
      then Inherited key
      else Undefined
  end.

(** An object or a function is truthy, [undefined] is not. *)
#[global] Instance truthy_property {A} : Truthy (property A) :=
  fun p => match p with Undefined => false | _ => true end.

(** [p.field]: [undefined] on the inherited functions, which have none of
    the fields of a chain. *)
Definition field {A B} (f : A -> B) (p : property A) : option B :=
  match p with
  | Own a => Some (f a)
  | _ => None
  end.

(** ** Decoded upstream payloads *)

(** [eth_getBalance]: [data.result]. *)
Module EvmRpc.
Record json := { result : option string }.
End EvmRpc.

(** Solana [getBalance]: [json?.result?.value]. *)
Module SolanaBalance.
Record result_t := { value : option float }.
Record json := { result : option result_t }.
End SolanaBalance.

(** Solana [getSignaturesForAddress]: raw signature entries. *)
Module SolanaSignatures.
Record entry := {
  signature : option string;
  slot : option float;
  blockTime : option float;
  confirmationStatus : option string;
}.
Record json := { result : option (list entry) }.
End SolanaSignatures.

(** Covalent [balances_v2]: [json?.data?.items]. *)
Module CovalentItem.
Record t := {
  balance : option string;
  quote : option float;
  contract_decimals : option Z;
  contract_name : option string;
  contract_ticker_symbol : option string;
  native_token : option bool;
}.
End CovalentItem.

Module CovalentBalances.
Record data_t := { items : option (list CovalentItem.t) }.
Record json := { data : option data_t }.
End CovalentBalances.

(** Covalent [transactions_v3]. *)
Module CovalentTx.
Record t := {
  tx_hash : option string;
  from_address : option string;
  to_address : option string;
  value : option string;
  value_quote : option float;
  gas_spent : option float;
  gas_quote : option float;
  successful : option bool;
  block_signed_at : option string;
}.
Record data_t := { items : option (list t) }.
Record json := { data : option data_t }.
End CovalentTx.

(** CoinGecko [simple/price]: an object keyed by coin id. *)
Module CoinGecko.
Record entry := { usd : option float }.
Definition json := gmap string entry.
End CoinGecko.

(** Moralis [wallets/:address/tokens]: [json?.result]. *)
Module MoralisItem.
Record t := {
  balance : option string;
  decimals : option Z;
  usd_value : option float;
  native_token : option bool;
  name : option string;
  token_address : option string;
  symbol : option string;
}.
End MoralisItem.

Module MoralisBalances.
Record json := { result : option (list MoralisItem.t) }.
End MoralisBalances.

(** Moralis [wallets/:address/history].  [receipt_status] is tested against
    [undefined]: [None] is an absent property, [Some None] is [null]. *)
Module MoralisTx.
Record t := {
  hash : option string;
  transaction_hash : option string;
  from_address : option string;
  from : option string;
  to_address : option string;
  to : option string;
  value : option string;
  value_usd : option float;
  block_timestamp : option string;
  block_signed_at : option string;
  receipt_status : option (option string);
}.
Record json := { result : option (list t) }.
End MoralisTx.

(** ** Values the adapters return *)

(** An entry of [tokens].  Covalent entries have no [nativeToken] property. *)
Record token := {
  contractName : option string;
  symbol : option string;
  balance : float;
  decimals : Z;
  quote : float;
  nativeToken : option bool;
}.

(** [nativeFromMoralis]: [{ balance, usd }]. *)
Record native_info := {
  native_balance : float;
  usd : float;
}.

(** [{ tokens, portfolioValueUsd, nativeFromMoralis }]; the Covalent adapter
    returns an object without [nativeFromMoralis]. *)
Record token_data := {
  tokens : list token;
  portfolioValueUsd : float;
  nativeFromMoralis : option native_info;
}.

Record covalent_transaction := {
  c_txHash : option string;
  c_from : option string;
  c_to : option string;
  c_value : option string;
  c_valueQuote : option float;
  c_gasSpent : option float;
  c_gasQuote : option float;
  c_successful : option bool;
  c_timestamp : option string;
}.

Record moralis_transaction := {
  m_txHash : string;
  m_from : string;
  m_to : string;
  m_value : float;
  m_valueQuote : option float;
  m_timestamp : string;
  m_successful : bool;
}.

Inductive transaction_list :=
| Signatures (l : list SolanaSignatures.entry)
| MoralisTransactions (l : list moralis_transaction)
| CovalentTransactions (l : list covalent_transaction).

(** ** Upstream services and the effects of a handler *)

(** What [fetch] resolves to: [response.ok], [response.status], and the
    decoded body ([None] when [response.json()] rejects). *)
Record http_response (T : Type) := {
  ok : bool;
  status : Z;
  json_body : option T;
}.
Arguments ok {T} _.
Arguments status {T} _.
Arguments json_body {T} _.

(** The requests the server can send.  A value interpolated into a URL may
    be [undefined]. *)
Inductive call :=
| Call_eth_getBalance (rpc address : string)
| Call_getBalance (rpc address : string)
| Call_getSignaturesForAddress (rpc address : string)
| Call_covalent_balances (chainId : option chain_id) (address : string)
    (apiKey : option string)
| Call_covalent_transactions (chainId : option chain_id) (address : string)
    (apiKey : option string)
| Call_moralis_tokens (chainSlug : option string) (address : string)
    (apiKey : option string)
| Call_moralis_history (chainSlug : option string) (address : string)
    (apiKey : option string)
| Call_coingecko_price (coinGeckoId : option string).

(** The answer of each service to each request; [None] is a transport
    failure ([fetch] rejects). *)
Record world := {
  eth_getBalance : string -> string -> option (http_response EvmRpc.json);
  solana_getBalance :
    string -> string -> option (http_response SolanaBalance.json);
  solana_getSignaturesForAddress :
    string -> string -> option (http_response SolanaSignatures.json);
  covalent_balances :
    option chain_id -> string -> option string ->
    option (http_response CovalentBalances.json);
  covalent_transactions :
    option chain_id -> string -> option string ->
    option (http_response CovalentTx.json);
  moralis_tokens :
    option string -> string -> option string ->
    option (http_response MoralisBalances.json);
  moralis_history :
    option string -> string -> option string ->
    option (http_response MoralisTx.json);
  coingecko_price : option string -> option (http_response CoinGecko.json);
  existsSync : string -> bool;
}.

(** A computation reads the world, appends to the log of the requests sent
    so far, and returns or throws. *)
Definition M (A : Type) : Type := world -> list call -> result A * list call.

Definition ret {A} (a : A) : M A := fun _ log => (Returned a, log).

Definition throw {A} (e : error) : M A := fun _ log => (Thrown e, log).

Definition bind {A B} (m : M A) (k : A -> M B) : M B :=
  fun w log =>
    match m w log with
    | (Returned a, log') => k a w log'
    | (Thrown e, log') => (Thrown e, log')
    end.

Notation "'let*' x ':=' m 'in' k" := (bind m (fun x => k))
  (at level 10, x name, m at level 100, k at level 200, only parsing).

(** [try { m } catch (err) { handler }]. *)
Definition try_catch {A} (m : M A) (handler : error -> M A) : M A :=
  fun w log =>
    match m w log with
    | (Returned a, log') => (Returned a, log')
    | (Thrown e, log') => handler e w log'
    end.

Definition lift {A} (r : result A) : M A := fun _ log => (r, log).

(** [await fetch(url, ...)]: an [undefined] URL does not parse and rejects
    before anything is sent. *)
Definition fetch {T} (url : option string) (c : string -> call)
    (service : world -> string -> option (http_response T))
  : M (http_response T) :=
  match url with
  | None => throw TypeError
  | Some u =>
      fun w log =>
        match service w u with
        | Some response => (Returned response, (log ++ [c u])%list)
        | None => (Thrown TypeError, (log ++ [c u])%list)
        end
  end.

(** [await fetch(url)] for a URL built from a template: always sent. *)
Definition fetch_api {T} (c : call)
    (service : world -> option (http_response T)) : M (http_response T) :=
  fun w log =>
    match service w with
    | Some response => (Returned response, (log ++ [c])%list)
    | None => (Thrown TypeError, (log ++ [c])%list)
    end.

(** [await response.json()]. *)
Definition response_json {T} (response : http_response T) : M T :=
  match json_body response with
  | Some j => ret j
  | None => throw SyntaxError
  end.

(** ** Helper functions of the server *)

(** The one JSON-RPC request the server makes through [jsonRpcRequest] is
    [eth_getBalance] with [params: [address, 'latest']]. *)
Definition jsonRpcRequest (endpoint : option string) (address : string)
  : M EvmRpc.json :=
  let* response := fetch endpoint (fun u => Call_eth_getBalance u address)
                (fun w u => eth_getBalance w u address) in
  if negb (ok response) then throw (Error "RPC request failed")
  else response_json response.

Definition getEvmNativeBalance (rpc : option string) (address : string)
  : M (option float) :=
  try_catch
    (let* data := jsonRpcRequest rpc address in
     let hex := EvmRpc.result data in
     if negb (truthy hex) then ret None
     else
       let* wei := lift (BigInt (default "" hex)) in
       let balance := (Number_of_BigInt wei / 1e18)%float in
       ret (Some balance))
    (fun err => ret None).

Definition getSolanaBalance (rpc : option string) (address : string)
  : M (option float) :=
  try_catch
    (let* response := fetch rpc (fun u => Call_getBalance u address)
                   (fun w u => solana_getBalance w u address) in
     if negb (ok response) then throw (Error "Solana RPC status")
     else
       let* json := response_json response in
       let lamports := SolanaBalance.result json ≫= SolanaBalance.value in
       match lamports with
       | None => ret None
       | Some lamports => ret (Some (lamports / 1e9)%float)
       end)
    (fun err => ret None).

(** [x !== s] for a string [s]. *)
Definition strict_ne_string (x : option string) (s : string) : bool :=
  match x with
  | Some x => negb (String.eqb x s)
  | None => true
  end.

(** [x !== n] for a number [n]. *)
Definition strict_ne_number (x : option float) (n : float) : bool :=
  match x with
  | Some x => negb (PrimFloat.eqb x n)
  | None => true
  end.

(** The predicate of [items.filter(...)] in [getCovalentBalances]. *)
Definition covalent_filter (item : CovalentItem.t) : bool :=
  strict_ne_string (CovalentItem.balance item) "0"
  && strict_ne_number (CovalentItem.quote item) 0.

(** The callback of [.map(...)], which also adds to [portfolioValueUsd];
    [BigInt] may throw. *)
Definition covalent_map (portfolioValueUsd : float) (item : CovalentItem.t)
  : result (token * float) :=
  match BigInt (or_else (CovalentItem.balance item) "0") with
  | Thrown e => Thrown e
  | Returned balanceRaw =>
      let decimals := or_else (CovalentItem.contract_decimals item) 0 in
      let balance := (Number_of_BigInt balanceRaw / pow10 decimals)%float in
      let value := or_else (CovalentItem.quote item) 0%float in
      let portfolioValueUsd := (portfolioValueUsd + value)%float in
      Returned
        ({| contractName := CovalentItem.contract_name item;
            symbol := CovalentItem.contract_ticker_symbol item;
            balance := balance;
            decimals := decimals;
            quote := value;
            nativeToken := None |},
         portfolioValueUsd)
  end.

Fixpoint covalent_map_all (portfolioValueUsd : float)
    (items : list CovalentItem.t) : result (list token * float) :=
  match items with
  | [] => Returned ([], portfolioValueUsd)
  | item :: rest =>
      match covalent_map portfolioValueUsd item with
      | Thrown e => Thrown e
      | Returned (t, portfolioValueUsd) =>
          match covalent_map_all portfolioValueUsd rest with
          | Thrown e => Thrown e
          | Returned (ts, portfolioValueUsd) =>
              Returned (t :: ts, portfolioValueUsd)
          end
      end
  end.

Definition getCovalentBalances (chainId : option chain_id)
    (address : string) (apiKey : option string) : M (option token_data) :=
  if negb (truthy apiKey) then ret None
  else
    try_catch
      (let* response := fetch_api (Call_covalent_balances chainId address apiKey)
                     (fun w => covalent_balances w chainId address apiKey) in
       if negb (ok response) then ret None
       else
         let* json := response_json response in
         let items :=
           default [] (CovalentBalances.data json ≫= CovalentBalances.items) in
         let portfolioValueUsd := 0%float in
         let* r := lift (covalent_map_all portfolioValueUsd
                      (List.filter covalent_filter items)) in
         let '(tokens, portfolioValueUsd) := r in
         ret (Some {| tokens := tokens;
                      portfolioValueUsd := portfolioValueUsd;
                      nativeFromMoralis := None |}))
      (fun err => ret None).

Definition covalent_transaction_of (tx : CovalentTx.t) : covalent_transaction :=
  {| c_txHash := CovalentTx.tx_hash tx;
     c_from := CovalentTx.from_address tx;
     c_to := CovalentTx.to_address tx;
     c_value := CovalentTx.value tx;
     c_valueQuote := CovalentTx.value_quote tx;
     c_gasSpent := CovalentTx.gas_spent tx;
     c_gasQuote := CovalentTx.gas_quote tx;
     c_successful := CovalentTx.successful tx;
     c_timestamp := CovalentTx.block_signed_at tx |}.

Definition getCovalentTransactions (chainId : option chain_id)
    (address : string) (apiKey : option string)
  : M (option (list covalent_transaction)) :=
  if negb (truthy apiKey) then ret None
  else
    try_catch
      (let* response :=
         fetch_api (Call_covalent_transactions chainId address apiKey)
           (fun w => covalent_transactions w chainId address apiKey) in
       if negb (ok response) then ret None
       else
         let* json := response_json response in
         let items := default [] (CovalentTx.data json ≫= CovalentTx.items) in
         let txs := map covalent_transaction_of items in
         ret (Some txs))
      (fun err => ret None).

Definition getSolanaSignatures (rpc : option string) (address : string)
  : M (option (list SolanaSignatures.entry)) :=
  try_catch
    (let* response :=
       fetch rpc (fun u => Call_getSignaturesForAddress u address)
         (fun w u => solana_getSignaturesForAddress w u address) in
     if negb (ok response) then throw (Error "Solana signatures status")
     else
       let* json := response_json response in
       ret (Some (default [] (SolanaSignatures.result json))))
    (fun err => ret None).

(** The key of [json?.[coinGeckoId]]: [undefined] is the key "undefined". *)
Definition property_key (k : option string) : string := default "undefined" k.

Definition getNativePriceUsd (coinGeckoId : option string) : M (option float) :=
  try_catch
    (let* response := fetch_api (Call_coingecko_price coinGeckoId)
                        (fun w => coingecko_price w coinGeckoId) in
     if negb (ok response) then throw (Error "CoinGecko status")
     else
       let* json := response_json response in
       let price :=
         (json : gmap string CoinGecko.entry) !! property_key coinGeckoId
           ≫= CoinGecko.usd in
       match price with
       | Some price => ret (Some price)
       | None => ret None
       end)
    (fun err => ret None).

(** *** Moralis integration *)

(** The variables of the loop of [getMoralisBalances]. *)
Record moralis_loop := {
  loop_portfolioValueUsd : float;
  loop_nativeFromMoralis : option native_info;
  loop_tokens : list token;
}.

(** [x === s] for a string [s]. *)
Definition strict_eq_string (x : option string) (s : string) : bool :=
  negb (strict_ne_string x s).

(** One turn of [for (const item of items)]. *)
Definition moralis_step (st : moralis_loop) (item : MoralisItem.t)
  : moralis_loop :=
  if strict_eq_string (MoralisItem.balance item) "0" then st
  else
    let decimals := or_else (MoralisItem.decimals item) 0 in
    let balance :=
      match BigInt (or_else (MoralisItem.balance item) "0") with
      | Returned bn => (Number_of_BigInt bn / pow10 decimals)%float
      | Thrown e => parseFloat (or_else (MoralisItem.balance item) "0")
      end in
    let usdValue :=
      if truthy (MoralisItem.usd_value item)
      then default 0%float (MoralisItem.usd_value item)
      else 0%float in
    if truthy (MoralisItem.native_token item) then
      {| loop_portfolioValueUsd := loop_portfolioValueUsd st;
         loop_nativeFromMoralis :=
           Some {| native_balance := balance; usd := usdValue |};
         loop_tokens := loop_tokens st |}
    else
      {| loop_portfolioValueUsd := (loop_portfolioValueUsd st + usdValue)%float;
         loop_nativeFromMoralis := loop_nativeFromMoralis st;
         loop_tokens :=
           (loop_tokens st ++
            [ {| contractName :=
                   Some (or_else (or_option (MoralisItem.name item)
                                    (MoralisItem.token_address item)) "");
                 symbol := Some (or_else (MoralisItem.symbol item) "");
                 balance := balance;
                 decimals := decimals;
                 quote := usdValue;
                 nativeToken := Some false |} ])%list |}.

Definition moralis_loop_init : moralis_loop :=
  {| loop_portfolioValueUsd := 0%float;
     loop_nativeFromMoralis := None;
     loop_tokens := [] |}.

Definition getMoralisBalances (chainSlug : option string) (address : string)
    (apiKey : option string) : M (option token_data) :=
  if negb (truthy apiKey) then ret None
  else
    try_catch
      (let* response := fetch_api (Call_moralis_tokens chainSlug address apiKey)
                          (fun w => moralis_tokens w chainSlug address apiKey) in
       if negb (ok response) then ret None
       else
         let* json := response_json response in
         let items := default [] (MoralisBalances.result json) in
         let st := fold_left moralis_step items moralis_loop_init in
         ret (Some {| tokens := loop_tokens st;
                      portfolioValueUsd := loop_portfolioValueUsd st;
                      nativeFromMoralis := loop_nativeFromMoralis st |}))
      (fun err => ret None).

Definition moralis_transaction_of (tx : MoralisTx.t) : moralis_transaction :=
  let value :=
    if truthy (MoralisTx.value tx)
    then Number_of_string (default "" (MoralisTx.value tx))
    else 0%float in
  let valueUsd :=
    if truthy (MoralisTx.value_usd tx) then MoralisTx.value_usd tx else None in
  {| m_txHash :=
       or_else (or_option (MoralisTx.hash tx) (MoralisTx.transaction_hash tx)) "";
     m_from :=
       or_else (or_option (MoralisTx.from_address tx) (MoralisTx.from tx)) "";
     m_to := or_else (or_option (MoralisTx.to_address tx) (MoralisTx.to tx)) "";
     m_value := value;
     m_valueQuote := valueUsd;
     m_timestamp :=
       or_else (or_option (MoralisTx.block_timestamp tx)
                  (MoralisTx.block_signed_at tx)) "";
     m_successful :=
       match MoralisTx.receipt_status tx with
       | Some receipt_status => truthy receipt_status
       | None => true
       end |}.

Definition getMoralisTransactions (chainSlug : option string)
    (address : string) (apiKey : option string)
  : M (option (list moralis_transaction)) :=
  if negb (truthy apiKey) then ret None
  else
    try_catch
      (let* response :=
         fetch_api (Call_moralis_history chainSlug address apiKey)
           (fun w => moralis_history w chainSlug address apiKey) in
       if negb (ok response) then ret None
       else
         let* json := response_json response in
         let items := default [] (MoralisTx.result json) in
         let txs := map moralis_transaction_of items in
         ret (Some txs))
      (fun err => ret None).

(** ** Request routing *)

(** The parts of the incoming request the handler reads: [req.method],
    [urlObj.pathname] and [urlObj.searchParams]. *)
Record request := {
  method : string;
  pathname : string;
  searchParams : gmap string string;
}.

Module Balances.
Record response := {
  network : string;
  address : string;
  nativeBalance : option float;
  nativeSymbol : option string;
  nativeValueUsd : option float;
  tokenBalances : option (list token);
  tokenPortfolioValueUsd : option float;
}.
End Balances.

Module Transactions.
Record response := {
  network : string;
  address : string;
  transactions : option transaction_list;
}.
End Transactions.

(** What is handed to [res.end] (before [JSON.stringify]) or piped to it. *)
Inductive body :=
| NoBody
| ErrorJson (error : string)
| BalancesJson (b : Balances.response)
| TransactionsJson (t : Transactions.response)
| FileStream (filePath : string).

Record reply := {
  statusCode : Z;
  content : body;
}.

(** Objects are truthy. *)
#[global] Instance truthy_token_data : Truthy token_data := fun _ => true.
#[global] Instance truthy_native_info : Truthy native_info := fun _ => true.

Definition bad_request : M reply :=
  ret {| statusCode := 400;
         content := ErrorJson "Missing or invalid network/address" |}.

(** The body of [if (pathname === '/api/balances' && req.method === 'GET')]. *)
Definition api_balances (env : gmap string string)
    (searchParams : gmap string string) : M reply :=
  match searchParams !! "network", searchParams !! "address" with
  | Some network, Some address =>
      if negb (truthy network) || negb (truthy address)
         || negb (truthy (get_property CHAIN_INFO network))
      then bad_request
      else
        let chain := get_property CHAIN_INFO network in
        let MORALIS_API_KEY := env !! "MORALIS_API_KEY" in
        let COVALENT_API_KEY := env !! "COVALENT_API_KEY" in
        let* fetched :=
          if String.eqb network "solana" then
            let* nativeBalance := getSolanaBalance (field rpc chain) address in
            if truthy MORALIS_API_KEY then
              let* tokenData :=
                getMoralisBalances (field moralisChain chain) address
                  MORALIS_API_KEY in
              ret (nativeBalance, tokenData, tokenData ≫= nativeFromMoralis)
            else ret (nativeBalance, None, None)
          else
            let* nativeBalance :=
              getEvmNativeBalance (field rpc chain) address in
            if truthy MORALIS_API_KEY then
              let* tokenData :=
                getMoralisBalances (field moralisChain chain) address
                  MORALIS_API_KEY in
              ret (nativeBalance, tokenData, tokenData ≫= nativeFromMoralis)
            else if truthy COVALENT_API_KEY then
              let* tokenData :=
                getCovalentBalances (field chainId chain) address
                  COVALENT_API_KEY in
              ret (nativeBalance, tokenData, None)
            else ret (nativeBalance, None, None) in
        let '(nativeBalance, tokenData, moralisNative) := fetched in
        let* priceUsd := getNativePriceUsd (field coinGeckoId chain) in
        let nativeValueUsd :=
          match nativeBalance, priceUsd with
          | Some nativeBalance, Some priceUsd =>
              Some (nativeBalance * priceUsd)%float
          | _, _ => None
          end in
        let tokenBalances :=
          if truthy tokenData then tokens <$> tokenData else None in
        let tokenPortfolioValueUsd :=
          if truthy tokenData then portfolioValueUsd <$> tokenData else None in
        let nativeBalance :=
          if match nativeBalance with
             | None => true
             | Some n => isNaN n
             end && truthy moralisNative
          then native_balance <$> moralisNative
          else nativeBalance in
        let nativeValueUsd :=
          if match nativeValueUsd with None => true | Some _ => false end
             && truthy moralisNative
          then usd <$> moralisNative
          else nativeValueUsd in
        let responseBody :=
          {| Balances.network := network;
             Balances.address := address;
             Balances.nativeBalance := nativeBalance;
             Balances.nativeSymbol := field nativeSymbol chain;
             Balances.nativeValueUsd := nativeValueUsd;
             Balances.tokenBalances := tokenBalances;
             Balances.tokenPortfolioValueUsd := tokenPortfolioValueUsd |} in
        ret {| statusCode := 200; content := BalancesJson responseBody |}
  | _, _ => bad_request
  end.

(** The body of
    [if (pathname === '/api/transactions' && req.method === 'GET')]. *)
Definition api_transactions (env : gmap string string)
    (searchParams : gmap string string) : M reply :=
  match searchParams !! "network", searchParams !! "address" with
  | Some network, Some address =>
      if negb (truthy network) || negb (truthy address)
         || negb (truthy (get_property CHAIN_INFO network))
      then bad_request
      else
        let chain := get_property CHAIN_INFO network in
        let MORALIS_API_KEY := env !! "MORALIS_API_KEY" in
        let COVALENT_API_KEY := env !! "COVALENT_API_KEY" in
        let* txs :=
          if String.eqb network "solana" then
            let* txs := getSolanaSignatures (field rpc chain) address in
            ret (Signatures <$> txs)
          else if truthy MORALIS_API_KEY then
            let* txs :=
              getMoralisTransactions (field moralisChain chain) address
                MORALIS_API_KEY in
            ret (MoralisTransactions <$> txs)
          else if truthy COVALENT_API_KEY then
            let* txs :=
              getCovalentTransactions (field chainId chain) address
                COVALENT_API_KEY in
            ret (CovalentTransactions <$> txs)
          else ret None in
        ret {| statusCode := 200;
               content :=
                 TransactionsJson
                   {| Transactions.network := network;
                      Transactions.address := address;
                      Transactions.transactions := txs |} |}
  | _, _ => bad_request
  end.

Definition startsWith (s p : string) : bool := String.prefix p s.

(** The file a path maps to; [path.join] is taken as concatenation under
    the client directory. *)
Definition static_file_path (pathname : string) : option string :=
  if String.eqb pathname "/" || String.eqb pathname "/index.html"
  then Some "../client/index.html"
  else if startsWith pathname "/static/"
  then Some ("../client/" ++ String.substring 8 (String.length pathname - 8) pathname)
  else if String.eqb pathname "/style.css" then Some "../client/style.css"
  else if String.eqb pathname "/script.js" then Some "../client/script.js"
  else None.

Definition serve_static (pathname : string) : M reply :=
  fun w log =>
    match static_file_path pathname with
    | Some filePath =>
        if existsSync w filePath
        then (Returned {| statusCode := 200; content := FileStream filePath |}, log)
        else (Returned {| statusCode := 404; content := ErrorJson "Not Found" |}, log)
    | None =>
        (Returned {| statusCode := 404; content := ErrorJson "Not Found" |}, log)
    end.

Definition handleRequest (env : gmap string string) (req : request) : M reply :=
  if String.eqb (method req) "OPTIONS"
  then ret {| statusCode := 204; content := NoBody |}
  else
    try_catch
      (if String.eqb (pathname req) "/api/balances"
          && String.eqb (method req) "GET"
       then api_balances env (searchParams req)
       else if String.eqb (pathname req) "/api/transactions"
               && String.eqb (method req) "GET"
       then api_transactions env (searchParams req)
       else serve_static (pathname req))
      (fun err =>
         ret {| statusCode := 500;
                content := ErrorJson "Internal server error" |}).

(** Serving one request: the reply (or an uncaught exception) and the
    upstream requests sent, in order. *)
Definition serve (env : gmap string string) (w : world) (req : request)
  : result reply * list call :=
  handleRequest env req w [].

(** ** Environment handling *)

(** [process.env] is an object too: [process.env[key]] is the variable of
    that name, or a property inherited from [Object.prototype].  The test
    [!process.env[key]] holds for a missing or empty variable. *)
Definition env_unset (env : gmap string string) (key : string) : bool :=
  match get_property env key with
  | Own v => negb (truthy v)
  | Inherited _ => false
  | Undefined => true
  end.

(** [text.split(re)] where [re] is an optional carriage return and a
    line feed, with the current line accumulated in reverse: a
    line ends at a line feed, and one carriage return before it belongs to
    the separator. *)
Fixpoint split_lines (current text : list ascii) : list (list ascii) :=
  match text with
  | [] => [rev current]
  | c :: rest =>
      if Ascii.eqb c "010" then
        rev (match current with
             | r :: before => if Ascii.eqb r "013" then before else current
             | [] => current
             end)
        :: split_lines [] rest
      else split_lines (c :: current) rest
  end.

(** The test of a comment line: blanks, then [#]. *)
Definition is_comment (line : list ascii) : bool :=
  match trim_start line with
  | c :: _ => Ascii.eqb c "#"
  | [] => false
  end.

(** A character of the class [[^=\s]]. *)
Definition key_char (c : ascii) : bool :=
  negb (is_whitespace c) && negb (Ascii.eqb c "=").

Fixpoint take_while (f : ascii -> bool) (l : list ascii) : list ascii :=
  match l with
  | c :: l' => if f c then c :: take_while f l' else []
  | [] => []
  end.

Fixpoint drop_while (f : ascii -> bool) (l : list ascii) : list ascii :=
  match l with
  | c :: l' => if f c then drop_while f l' else l
  | [] => []
  end.

(** What [.] matches: anything but a line terminator. *)
Definition not_line_terminator (c : ascii) : bool :=
  negb (Ascii.eqb c "010" || Ascii.eqb c "013").

(** [line.match(re)] followed by the two [trim()]s, where [re] is, from
    [^] to [$]: blanks, a group of one or more characters other than [=]
    and blanks (the key), blanks, [=], blanks, a group of any characters
    but line terminators (the value), blanks.  The key is the run of key
    characters after the leading blanks and must be followed, after
    blanks, by [=]; the value is what follows, trimmed, and it must hold
    no line terminator for the second group to match it. *)
Definition parse_line (line : list ascii) : option (string * string) :=
  let l1 := trim_start line in
  let key := take_while key_char l1 in
  match key with
  | [] => None
  | _ =>
      match trim_start (drop_while key_char l1) with
      | c :: rest =>
          if Ascii.eqb c "=" then
            let value := trim rest in
            if forallb not_line_terminator value
            then Some (string_of_list_ascii key, string_of_list_ascii value)
            else None
          else None
      | [] => None
      end
  end.

(** One turn of [for (const line of envLines)]. *)
Definition load_line (env : gmap string string) (line : list ascii)
  : gmap string string :=
  if match line with [] => true | _ => false end || is_comment line then env
  else
    match parse_line line with
    | Some (key, value) =>
        if env_unset env key then <[key := value]> env else env
    | None => env
    end.

(** The loader, for the content of the [.env] file ([None] when the file
    does not exist). *)
Definition load_env (file : option string) (env : gmap string string)
  : gmap string string :=
  match file with
  | Some text =>
      let envLines := split_lines [] (list_ascii_of_string text) in
      fold_left load_line envLines env
  | None => env
  end.

(** * Vocabulary of the specification *)

(** [runs m w a calls]: in world [w], [m] returns [a] after sending exactly
    the requests [calls], whatever was sent before. *)
Definition runs {A} (m : M A) (w : world) (a : A) (calls : list call) : Prop :=
  forall log, m w log = (Returned a, (log ++ calls)%list).

(** The value or exception of [m] in [w]. *)
Definition outcome {A} (m : M A) (w : world) : result A := fst (m w []).

(** An upstream answer the adapters take as a failure: transport failure, a
    non-success status, or a body that is not the expected JSON. *)
Definition unavailable {T} (answer : option (http_response T)) : bool :=
  match answer with
  | None => true
  | Some response =>
      negb (ok response)
      || match json_body response with Some _ => false | None => true end
  end.

Inductive provider := Moralis | Covalent.

(** The selection rule: Moralis when its key is configured, on every
    network; otherwise Covalent, on an EVM network, when its key is
    configured; otherwise no provider. *)
Definition selected_provider (env : gmap string string) (network : string)
  : option provider :=
  if truthy (env !! "MORALIS_API_KEY") then Some Moralis
  else if String.eqb network "solana" then None
  else if truthy (env !! "COVALENT_API_KEY") then Some Covalent
  else None.

(** The RPC adapter of a network. *)
Definition native_source (network : string) (c : chain) (address : string)
  : M (option float) :=
  if String.eqb network "solana"
  then getSolanaBalance (Some (rpc c)) address
  else getEvmNativeBalance (Some (rpc c)) address.

Definition native_call (network : string) (c : chain) (address : string)
  : call :=
  if String.eqb network "solana"
  then Call_getBalance (rpc c) address
  else Call_eth_getBalance (rpc c) address.

(** The adapter of the selected provider. *)
Definition token_source (env : gmap string string) (network : string)
    (c : chain) (address : string) : M (option token_data) :=
  match selected_provider env network with
  | Some Moralis =>
      getMoralisBalances (Some (moralisChain c)) address
        (env !! "MORALIS_API_KEY")
  | Some Covalent =>
      getCovalentBalances (Some (chainId c)) address
        (env !! "COVALENT_API_KEY")
  | None => ret None
  end.

Definition token_calls (env : gmap string string) (network : string)
    (c : chain) (address : string) : list call :=
  match selected_provider env network with
  | Some Moralis =>
      [Call_moralis_tokens (Some (moralisChain c)) address
         (env !! "MORALIS_API_KEY")]
  | Some Covalent =>
      [Call_covalent_balances (Some (chainId c)) address
         (env !! "COVALENT_API_KEY")]
  | None => []
  end.

(** The native balance the selected provider surfaced ([moralisNative]). *)
Definition provider_native (env : gmap string string) (network : string)
    (tokenData : option token_data) : option native_info :=
  match selected_provider env network with
  | Some Moralis => tokenData ≫= nativeFromMoralis
  | _ => None
  end.

(** No usable value: [nativeBalance == null || isNaN(nativeBalance)]. *)
Definition unusable (nativeBalance : option float) : bool :=
  match nativeBalance with
  | None => true
  | Some n => isNaN n
  end.

(** The response the handler composes from what the RPC adapter, the
    selected provider and the price lookup returned. *)
Definition merge (network address : string) (c : chain)
    (nativeBalance : option float) (tokenData : option token_data)
    (moralisNative : option native_info) (priceUsd : option float)
  : Balances.response :=
  {| Balances.network := network;
     Balances.address := address;
     Balances.nativeBalance :=
       if unusable nativeBalance && truthy moralisNative
       then native_balance <$> moralisNative
       else nativeBalance;
     Balances.nativeSymbol := Some (nativeSymbol c);
     Balances.nativeValueUsd :=
       match nativeBalance, priceUsd with
       | Some b, Some p => Some (b * p)%float
       | _, _ => usd <$> moralisNative
       end;
     Balances.tokenBalances := tokens <$> tokenData;
     Balances.tokenPortfolioValueUsd := portfolioValueUsd <$> tokenData |}.

(** The upstream answers behind a request, with a missing key counted as an
    unavailable provider. *)
Definition native_unavailable (w : world) (network : string) (c : chain)
    (address : string) : bool :=
  if String.eqb network "solana"
  then unavailable (solana_getBalance w (rpc c) address)
  else unavailable (eth_getBalance w (rpc c) address).

Definition tokens_unavailable (env : gmap string string) (w : world)
    (network : string) (c : chain) (address : string) : bool :=
  match selected_provider env network with
  | Some Moralis =>
      unavailable
        (moralis_tokens w (Some (moralisChain c)) address
           (env !! "MORALIS_API_KEY"))
  | Some Covalent =>
      unavailable
        (covalent_balances w (Some (chainId c)) address
           (env !! "COVALENT_API_KEY"))
  | None => true
  end.

Definition price_unavailable (w : world) (c : chain) : bool :=
  unavailable (coingecko_price w (Some (coinGeckoId c))).

Definition transactions_unavailable (env : gmap string string) (w : world)
    (network : string) (c : chain) (address : string) : bool :=
  if String.eqb network "solana"
  then unavailable (solana_getSignaturesForAddress w (rpc c) address)
  else if truthy (env !! "MORALIS_API_KEY")
  then unavailable
         (moralis_history w (Some (moralisChain c)) address
            (env !! "MORALIS_API_KEY"))
  else if truthy (env !! "COVALENT_API_KEY")
  then unavailable
         (covalent_transactions w (Some (chainId c)) address
            (env !! "COVALENT_API_KEY"))
  else true.

Definition GET (path : string) (params : gmap string string) : request :=
  {| method := "GET"; pathname := path; searchParams := params |}.

(** The guard [!network || !address || !CHAIN_INFO[network]]. *)
Definition passes_validation (params : gmap string string) : bool :=
  match params !! "network", params !! "address" with
  | Some network, Some address =>
      truthy network && truthy address
      && truthy (get_property CHAIN_INFO network)
  | _, _ => false
  end.

Definition rejected : result reply * list call :=
  (Returned {| statusCode := 400;
               content := ErrorJson "Missing or invalid network/address" |},
   []).

(** The provider requests among the requests of a handler. *)
Definition is_token_provider_call (c : call) : bool :=
  match c with
  | Call_moralis_tokens _ _ _ | Call_covalent_balances _ _ _ => true
  | _ => false
  end.

Definition token_provider_calls (calls : list call) : list call :=
  List.filter is_token_provider_call calls.


Definition moralis_items
    (answer : option (http_response MoralisBalances.json))
  : list MoralisItem.t :=
  match answer ≫= json_body with
  | Some json => default [] (MoralisBalances.result json)
  | None => []
  end.


(** What one item adds to the token list of the Moralis loop. *)
Definition moralis_listing (item : MoralisItem.t) : list token :=
  loop_tokens (moralis_step moralis_loop_init item).

(** The variable a line of the file defines, if any: blank lines, comment
    lines and lines the pattern does not match define none. *)
Definition line_binding (line : list ascii) : option (string * string) :=
  if match line with [] => true | _ => false end || is_comment line then None
  else parse_line line.


(** The quotes of a token list, added from the left starting at 0, as
    [portfolioValueUsd += ...] does. *)
Definition sum_quotes (ts : list token) : float :=
  fold_left PrimFloat.add (map quote ts) 0%float.

(** A Moralis item that is flagged native and is not skipped for a zero
    balance. *)
Definition moralis_native_item (item : MoralisItem.t) : bool :=
  truthy (MoralisItem.native_token item)
  && strict_ne_string (MoralisItem.balance item) "0".

(** A Covalent item whose balance [BigInt] rejects. *)
Definition covalent_rejected_balance (item : CovalentItem.t) : bool :=
  match BigInt (or_else (CovalentItem.balance item) "0") with
  | Returned _ => false
  | Thrown _ => true
  end.

(** The requests of a transactions request: the Solana RPC for Solana,
    whatever the keys; otherwise the history of the selected provider. *)
Definition transaction_calls (env : gmap string string) (network : string)
    (c : chain) (address : string) : list call :=
  if String.eqb network "solana"
  then [Call_getSignaturesForAddress (rpc c) address]
  else if truthy (env !! "MORALIS_API_KEY")
  then [Call_moralis_history (Some (moralisChain c)) address
          (env !! "MORALIS_API_KEY")]
  else if truthy (env !! "COVALENT_API_KEY")
  then [Call_covalent_transactions (Some (chainId c)) address
          (env !! "COVALENT_API_KEY")]
  else [].

(** A request to Covalent, of either kind. *)
Definition is_covalent_call (c : call) : bool :=
  match c with
  | Call_covalent_balances _ _ _ | Call_covalent_transactions _ _ _ => true
  | _ => false
  end.


(** The two API routes. *)
Definition api_path (path : string) : bool :=
  String.eqb path "/api/balances" || String.eqb path "/api/transactions".

(** * Sample requests, configurations and worlds *)

Definition query (network address : string) : gmap string string :=
  list_to_map [("network", network); ("address", address)].

Definition ok_json {T} (j : T) : option (http_response T) :=
  Some {| ok := true; status := 200; json_body := Some j |}.

Definition ethereum : chain :=
  {| chainId := NumericChainId 1;
     rpc := "https://cloudflare-eth.com";
     nativeSymbol := "ETH";
     coinGeckoId := "ethereum";
     moralisChain := "eth" |}.

Definition solana : chain :=
  {| chainId := NamedChainId "solana";
     rpc := "https://api.mainnet-beta.solana.com";
     nativeSymbol := "SOL";
     coinGeckoId := "solana";
     moralisChain := "solana" |}.

Definition no_keys : gmap string string := ∅.
Definition moralis_key : gmap string string := {[ "MORALIS_API_KEY" := "m-key" ]}.
Definition covalent_key : gmap string string := {[ "COVALENT_API_KEY" := "c-key" ]}.

(** Every upstream service is unreachable. *)
Definition offline : world :=
  {| eth_getBalance := fun _ _ => None;
     solana_getBalance := fun _ _ => None;
     solana_getSignaturesForAddress := fun _ _ => None;
     covalent_balances := fun _ _ _ => None;
     covalent_transactions := fun _ _ _ => None;
     moralis_tokens := fun _ _ _ => None;
     moralis_history := fun _ _ _ => None;
     coingecko_price := fun _ => None;
     existsSync := fun _ => false |}.

(** One ether, reported inline by a provider as the native token. *)
Definition moralis_native_ether : MoralisItem.t :=
  {| MoralisItem.balance := Some "1000000000000000000";
     MoralisItem.decimals := Some 18;
     MoralisItem.usd_value := Some 2000%float;
     MoralisItem.native_token := Some true;
     MoralisItem.name := Some "Ether";
     MoralisItem.token_address := None;
     MoralisItem.symbol := Some "ETH" |}.

Definition surfaced_ether : native_info :=
  {| native_balance := 1; usd := 2000 |}.

Definition only_native_data : token_data :=
  {| tokens := [];
     portfolioValueUsd := 0;
     nativeFromMoralis := Some surfaced_ether |}.

(** RPC and price lookup are down; Moralis reports one ether inline. *)
Definition only_moralis : world :=
  {| eth_getBalance := fun _ _ => None;
     solana_getBalance := fun _ _ => None;
     solana_getSignaturesForAddress := fun _ _ => None;
     covalent_balances := fun _ _ _ => None;
     covalent_transactions := fun _ _ _ => None;
     moralis_tokens := fun _ _ _ =>
       ok_json {| MoralisBalances.result := Some [moralis_native_ether] |};
     moralis_history := fun _ _ _ => None;
     coingecko_price := fun _ => None;
     existsSync := fun _ => false |}.

Definition covalent_native_ether : CovalentItem.t :=
  {| CovalentItem.balance := Some "1000000000000000000";
     CovalentItem.quote := Some 2000%float;
     CovalentItem.contract_decimals := Some 18;
     CovalentItem.contract_name := Some "Ether";
     CovalentItem.contract_ticker_symbol := Some "ETH";
     CovalentItem.native_token := Some true |}.

(** The RPC reports one ether, the price is 2000 USD, and Covalent lists
    that ether inline, flagged as the native token. *)
Definition covalent_inline_native : world :=
  {| eth_getBalance := fun _ _ =>
       ok_json {| EvmRpc.result := Some "0xde0b6b3a7640000" |};
     solana_getBalance := fun _ _ => None;
     solana_getSignaturesForAddress := fun _ _ => None;
     covalent_balances := fun _ _ _ =>
       ok_json
         {| CovalentBalances.data :=
              Some {| CovalentBalances.items := Some [covalent_native_ether] |} |};
     covalent_transactions := fun _ _ _ => None;
     moralis_tokens := fun _ _ _ => None;
     moralis_history := fun _ _ _ => None;
     coingecko_price := fun _ =>
       ok_json ({[ "ethereum" := {| CoinGecko.usd := Some 2000%float |} ]}
                : gmap string CoinGecko.entry);
     existsSync := fun _ => false |}.

(** A Covalent answer with a zero-balance entry, an entry the provider
    could not price (quote 0) and a priced one (raw balance 150000, three
    decimals). *)
Definition covalent_empty_holding : CovalentItem.t :=
  {| CovalentItem.balance := Some "0";
     CovalentItem.quote := Some 0%float;
     CovalentItem.contract_decimals := Some 18;
     CovalentItem.contract_name := Some "Dai Stablecoin";
     CovalentItem.contract_ticker_symbol := Some "DAI";
     CovalentItem.native_token := Some false |}.

Definition covalent_unpriced_holding : CovalentItem.t :=
  {| CovalentItem.balance := Some "500";
     CovalentItem.quote := Some 0%float;
     CovalentItem.contract_decimals := Some 2;
     CovalentItem.contract_name := Some "Obscure";
     CovalentItem.contract_ticker_symbol := Some "OBS";
     CovalentItem.native_token := Some false |}.

Definition covalent_priced_holding : CovalentItem.t :=
  {| CovalentItem.balance := Some "150000";
     CovalentItem.quote := Some 150%float;
     CovalentItem.contract_decimals := Some 3;
     CovalentItem.contract_name := Some "Sample";
     CovalentItem.contract_ticker_symbol := Some "SMP";
     CovalentItem.native_token := Some false |}.

Definition covalent_portfolio : world :=
  {| eth_getBalance := fun _ _ => None;
     solana_getBalance := fun _ _ => None;
     solana_getSignaturesForAddress := fun _ _ => None;
     covalent_balances := fun _ _ _ =>
       ok_json
         {| CovalentBalances.data :=
              Some {| CovalentBalances.items :=
                        Some [covalent_empty_holding;
                              covalent_unpriced_holding;
                              covalent_priced_holding] |} |};
     covalent_transactions := fun _ _ _ => None;
     moralis_tokens := fun _ _ _ => None;
     moralis_history := fun _ _ _ => None;
     coingecko_price := fun _ => None;
     existsSync := fun _ => false |}.

Definition sample_token : token :=
  {| contractName := Some "Sample";
     symbol := Some "SMP";
     balance := 150;
     decimals := 3;
     quote := 150;
     nativeToken := None |}.

Definition covalent_portfolio_data : token_data :=
  {| tokens := [sample_token];
     portfolioValueUsd := 150;
     nativeFromMoralis := None |}.


Definition moralis_priced_holding : MoralisItem.t :=
  {| MoralisItem.balance := Some "150000";
     MoralisItem.decimals := Some 3;
     MoralisItem.usd_value := Some 150%float;
     MoralisItem.native_token := Some false;
     MoralisItem.name := Some "Sample";
     MoralisItem.token_address := None;
     MoralisItem.symbol := Some "SMP" |}.

(** The RPC reports half an ether and the price is 2000 USD. *)
Definition half_ether : world :=
  {| eth_getBalance := fun _ _ =>
       ok_json {| EvmRpc.result := Some "0x6f05b59d3b20000" |};
     solana_getBalance := fun _ _ => None;
     solana_getSignaturesForAddress := fun _ _ => None;
     covalent_balances := fun _ _ _ => None;
     covalent_transactions := fun _ _ _ => None;
     moralis_tokens := fun _ _ _ => None;
     moralis_history := fun _ _ _ => None;
     coingecko_price := fun _ =>
       ok_json ({[ "ethereum" := {| CoinGecko.usd := Some 2000%float |} ]}
                : gmap string CoinGecko.entry);
     existsSync := fun _ => false |}.


(** The Solana RPC answers a signature request without a [result]. *)
Definition no_signatures : world :=
  {| eth_getBalance := fun _ _ => None;
     solana_getBalance := fun _ _ => None;
     solana_getSignaturesForAddress := fun _ _ =>
       ok_json {| SolanaSignatures.result := None |};
     covalent_balances := fun _ _ _ => None;
     covalent_transactions := fun _ _ _ => None;
     moralis_tokens := fun _ _ _ => None;
     moralis_history := fun _ _ _ => None;
     coingecko_price := fun _ => None;
     existsSync := fun _ => false |}.

(** A holding whose balance is no integer literal. *)
Definition moralis_fractional_holding : MoralisItem.t :=
  {| MoralisItem.balance := Some "1.5";
     MoralisItem.decimals := Some 18;
     MoralisItem.usd_value := Some 3%float;
     MoralisItem.native_token := Some false;
     MoralisItem.name := Some "Odd";
     MoralisItem.token_address := None;
     MoralisItem.symbol := Some "ODD" |}.

Definition covalent_fractional_holding : CovalentItem.t :=
  {| CovalentItem.balance := Some "1.5";
     CovalentItem.quote := Some 3%float;
     CovalentItem.contract_decimals := Some 18;
     CovalentItem.contract_name := Some "Odd";
     CovalentItem.contract_ticker_symbol := Some "ODD";
     CovalentItem.native_token := Some false |}.

(** Both providers list a sound holding and one with a fractional
    balance. *)
Definition fractional_balances : world :=
  {| eth_getBalance := fun _ _ => None;
     solana_getBalance := fun _ _ => None;
     solana_getSignaturesForAddress := fun _ _ => None;
     covalent_balances := fun _ _ _ =>
       ok_json
         {| CovalentBalances.data :=
              Some {| CovalentBalances.items :=
                        Some [covalent_priced_holding;
                              covalent_fractional_holding] |} |};
     covalent_transactions := fun _ _ _ => None;
     moralis_tokens := fun _ _ _ =>
       ok_json
         {| MoralisBalances.result :=
              Some [moralis_priced_holding; moralis_fractional_holding] |};
     moralis_history := fun _ _ _ => None;
     coingecko_price := fun _ => None;
     existsSync := fun _ => false |}.

(** The RPC reports half an ether while Moralis surfaces one ether. *)
Definition disagreeing_sources : world :=
  {| eth_getBalance := fun _ _ =>
       ok_json {| EvmRpc.result := Some "0x6f05b59d3b20000" |};
     solana_getBalance := fun _ _ => None;
     solana_getSignaturesForAddress := fun _ _ => None;
     covalent_balances := fun _ _ _ => None;
     covalent_transactions := fun _ _ _ => None;
     moralis_tokens := fun _ _ _ =>
       ok_json {| MoralisBalances.result := Some [moralis_native_ether] |};
     moralis_history := fun _ _ _ => None;
     coingecko_price := fun _ => None;
     existsSync := fun _ => false |}.

Definition both_keys : gmap string string :=
  {[ "MORALIS_API_KEY" := "m-key"; "COVALENT_API_KEY" := "c-key" ]}.

(** * Properties *)

(** ** The conversions of the runtime, on a few values *)

Example BigInt_hex : BigInt "0x1F" = Returned 31.
Proof. reflexivity. Qed.

Example BigInt_signed : BigInt " -12 " = Returned (-12).
Proof. reflexivity. Qed.

Example BigInt_fraction : BigInt "1.5" = Thrown SyntaxError.
Proof. reflexivity. Qed.

Example parseFloat_prefix : parseFloat "1.5abc" = 1.5%float.
Proof. reflexivity. Qed.

Example parseFloat_exponent : parseFloat "25e-2" = 0.25%float.
Proof. reflexivity. Qed.

Example parseFloat_not_a_number : parseFloat "abc" = nan.
Proof. reflexivity. Qed.

Example Number_of_string_hex : Number_of_string " 0x10 " = 16%float.
Proof. reflexivity. Qed.

Example Number_of_string_trailing : Number_of_string "12abc" = nan.
Proof. reflexivity. Qed.

Example Number_of_BigInt_rounds :
  Number_of_BigInt 9007199254740993 = 9007199254740992%float.
Proof. reflexivity. Qed.

Example pow10_exact : pow10 18 = 1e18%float /\ pow10 3 = 1000%float.
Proof. split; reflexivity. Qed.

Ltac solve_runs :=
  solve [ eexists; split;
          [ intros ?log; cbn; try rewrite app_nil_r; reflexivity
          | try reflexivity; try discriminate; auto ] ].

(** ** A request, end to end *)

Example balances_without_provider_keys :
  serve no_keys half_ether (GET "/api/balances" (query "ethereum" "0xabc"))
  = (Returned
       {| statusCode := 200;
          content :=
            BalancesJson
              {| Balances.network := "ethereum";
                 Balances.address := "0xabc";
                 Balances.nativeBalance := Some 0.5%float;
                 Balances.nativeSymbol := Some "ETH";
                 Balances.nativeValueUsd := Some 1000%float;
                 Balances.tokenBalances := None;
                 Balances.tokenPortfolioValueUsd := None |} |},
     [Call_eth_getBalance "https://cloudflare-eth.com" "0xabc";
      Call_coingecko_price (Some "ethereum")]).
Proof. vm_compute. reflexivity. Qed.

Example unknown_network_is_rejected :
  serve no_keys offline (GET "/api/balances" (query "dogecoin" "0xabc"))
  = (Returned {| statusCode := 400;
                 content := ErrorJson "Missing or invalid network/address" |},
     []).
Proof. vm_compute. reflexivity. Qed.

(** ** Running a computation *)

Lemma runs_outcome {A} (m : M A) w a calls :
  runs m w a calls -> outcome m w = Returned a.
Proof. intros H. unfold outcome. now rewrite (H []). Qed.

Lemma runs_ret {A} (a : A) w : runs (ret a) w a [].
Proof. intros log. unfold ret. now rewrite app_nil_r. Qed.

Lemma runs_bind {A B} (m : M A) (k : A -> M B) w a b c1 c2 :
  runs m w a c1 -> runs (k a) w b c2 -> runs (bind m k) w b (c1 ++ c2)%list.
Proof.
  intros Hm Hk log. unfold bind. rewrite Hm, Hk. now rewrite app_assoc.
Qed.

Lemma runs_functional {A} (m : M A) w a a' c c' :
  runs m w a c -> runs m w a' c' -> a = a' /\ c = c'.
Proof.
  intros H H'. specialize (H []). specialize (H' []).
  rewrite H in H'. now inversion H'.
Qed.

(** ** The adapters never throw *)

Lemma getEvmNativeBalance_runs u address w :
  exists r,
    runs (getEvmNativeBalance (Some u) address) w r
      [Call_eth_getBalance u address]
    /\ (unavailable (eth_getBalance w u address) = true -> r = None).
Proof.
  unfold runs, getEvmNativeBalance, try_catch, jsonRpcRequest, bind, fetch,
    response_json, ret, throw, lift, unavailable.
  destruct (eth_getBalance w u address) as [[o st [j|]]|]; cbn;
    try destruct o; cbn;
    try destruct (truthy (EvmRpc.result j)); cbn;
    try destruct (BigInt _); cbn; solve_runs.
Qed.

Lemma getSolanaBalance_runs u address w :
  exists r,
    runs (getSolanaBalance (Some u) address) w r [Call_getBalance u address]
    /\ (unavailable (solana_getBalance w u address) = true -> r = None).
Proof.
  unfold runs, getSolanaBalance, try_catch, bind, fetch, response_json, ret,
    throw, unavailable.
  destruct (solana_getBalance w u address) as [[o st [j|]]|]; cbn;
    try destruct o; cbn;
    try destruct (SolanaBalance.result j ≫= SolanaBalance.value); cbn;
    solve_runs.
Qed.

(** With an [undefined] endpoint nothing is sent and the adapter yields
    [null]. *)
Lemma getEvmNativeBalance_undefined address w :
  runs (getEvmNativeBalance None address) w None [].
Proof. intros log. cbn. now rewrite app_nil_r. Qed.



Lemma getSolanaSignatures_runs u address w :
  exists r,
    runs (getSolanaSignatures (Some u) address) w r
      [Call_getSignaturesForAddress u address]
    /\ (unavailable (solana_getSignaturesForAddress w u address) = true ->
        r = None).
Proof.
  unfold runs, getSolanaSignatures, try_catch, bind, fetch, response_json, ret,
    throw, unavailable.
  destruct (solana_getSignaturesForAddress w u address) as [[o st [j|]]|]; cbn;
    try destruct o; cbn; solve_runs.
Qed.

Lemma getNativePriceUsd_runs id w :
  exists r,
    runs (getNativePriceUsd id) w r [Call_coingecko_price id]
    /\ (unavailable (coingecko_price w id) = true -> r = None).
Proof.
  unfold runs, getNativePriceUsd, try_catch, bind, fetch_api, response_json,
    ret, throw, unavailable.
  destruct (coingecko_price w id) as [[o st [j|]]|]; cbn;
    try destruct o; cbn;
    try destruct (_ ≫= CoinGecko.usd); cbn; solve_runs.
Qed.

Lemma getCovalentBalances_runs chainId address apiKey w :
  truthy apiKey = true ->
  exists r,
    runs (getCovalentBalances chainId address apiKey) w r
      [Call_covalent_balances chainId address apiKey]
    /\ (unavailable (covalent_balances w chainId address apiKey) = true ->
        r = None).
Proof.
  intros Hkey.
  unfold runs, getCovalentBalances, try_catch, bind, fetch_api, response_json,
    ret, throw, lift, unavailable.
  rewrite Hkey; cbn.
  destruct (covalent_balances w chainId address apiKey) as [[o st [j|]]|]; cbn;
    try destruct o; cbn;
    try destruct (covalent_map_all _ _) as [[ts p]|]; cbn; solve_runs.
Qed.

Lemma getMoralisBalances_runs chainSlug address apiKey w :
  truthy apiKey = true ->
  exists r,
    runs (getMoralisBalances chainSlug address apiKey) w r
      [Call_moralis_tokens chainSlug address apiKey]
    /\ (unavailable (moralis_tokens w chainSlug address apiKey) = true ->
        r = None).
Proof.
  intros Hkey.
  unfold runs, getMoralisBalances, try_catch, bind, fetch_api, response_json,
    ret, throw, unavailable.
  rewrite Hkey; cbn.
  destruct (moralis_tokens w chainSlug address apiKey) as [[o st [j|]]|]; cbn;
    try destruct o; cbn; solve_runs.
Qed.

Lemma getCovalentTransactions_runs chainId address apiKey w :
  truthy apiKey = true ->
  exists r,
    runs (getCovalentTransactions chainId address apiKey) w r
      [Call_covalent_transactions chainId address apiKey]
    /\ (unavailable (covalent_transactions w chainId address apiKey) = true ->
        r = None).
Proof.
  intros Hkey.
  unfold runs, getCovalentTransactions, try_catch, bind, fetch_api,
    response_json, ret, throw, unavailable.
  rewrite Hkey; cbn.
  destruct (covalent_transactions w chainId address apiKey)
    as [[o st [j|]]|]; cbn;
    try destruct o; cbn; solve_runs.
Qed.

Lemma getMoralisTransactions_runs chainSlug address apiKey w :
  truthy apiKey = true ->
  exists r,
    runs (getMoralisTransactions chainSlug address apiKey) w r
      [Call_moralis_history chainSlug address apiKey]
    /\ (unavailable (moralis_history w chainSlug address apiKey) = true ->
        r = None).
Proof.
  intros Hkey.
  unfold runs, getMoralisTransactions, try_catch, bind, fetch_api,
    response_json, ret, throw, unavailable.
  rewrite Hkey; cbn.
  destruct (moralis_history w chainSlug address apiKey) as [[o st [j|]]|]; cbn;
    try destruct o; cbn; solve_runs.
Qed.

(** Without a key the provider adapters return [null] at once. *)
Lemma provider_adapters_without_key chainId chainSlug address apiKey w :
  truthy apiKey = false ->
  runs (getCovalentBalances chainId address apiKey) w None []
  /\ runs (getMoralisBalances chainSlug address apiKey) w None []
  /\ runs (getCovalentTransactions chainId address apiKey) w None []
  /\ runs (getMoralisTransactions chainSlug address apiKey) w None [].
Proof.
  intros Hkey.
  unfold runs, getCovalentBalances, getMoralisBalances,
    getCovalentTransactions, getMoralisTransactions.
  rewrite Hkey; cbn. unfold ret.
  repeat split; intros log; now rewrite app_nil_r.
Qed.

(** ** The network registry *)

Lemma get_property_own {A} (o : gmap string A) key a :
  o !! key = Some a -> get_property o key = Own a.
Proof. intros H. unfold get_property. now rewrite H. Qed.

(** The registry holds the five networks and nothing else. *)
Lemma CHAIN_INFO_lookup network c :
  CHAIN_INFO !! network = Some c ->
  In network ["ethereum"; "polygon"; "binance"; "base"; "solana"].
Proof.
  intros H. unfold CHAIN_INFO in H.
  apply elem_of_list_to_map_2 in H.
  repeat (apply elem_of_cons in H as [H|H]; [inversion H; subst; cbn; tauto|]).
  now apply elem_of_nil in H.
Qed.

Lemma CHAIN_INFO_key_truthy network c :
  CHAIN_INFO !! network = Some c -> truthy network = true.
Proof.
  intros H. apply CHAIN_INFO_lookup in H. cbn in H.
  repeat (destruct H as [<-|H]; [reflexivity|]). contradiction.
Qed.

(** ** The two sources of a balances request, and the merge *)

Lemma native_source_runs network c address w :
  exists r,
    runs (native_source network c address) w r
      [native_call network c address].
Proof.
  unfold native_source, native_call.
  destruct (String.eqb network "solana").
  - destruct (getSolanaBalance_runs (rpc c) address w) as [r [H _]]; eauto.
  - destruct (getEvmNativeBalance_runs (rpc c) address w) as [r [H _]]; eauto.
Qed.

Lemma token_source_runs env network c address w :
  exists r,
    runs (token_source env network c address) w r
      (token_calls env network c address).
Proof.
  unfold token_source, token_calls, selected_provider.
  destruct (truthy (env !! "MORALIS_API_KEY")) eqn:Hm.
  - destruct (getMoralisBalances_runs (Some (moralisChain c)) address _ w Hm)
      as [r [H _]]; eauto.
  - destruct (String.eqb network "solana").
    + eexists; apply runs_ret.
    + destruct (truthy (env !! "COVALENT_API_KEY")) eqn:Hc.
      * destruct (getCovalentBalances_runs (Some (chainId c)) address _ w Hc)
          as [r [H _]]; eauto.
      * eexists; apply runs_ret.
Qed.

(** A request for a registered network with an address passes validation:
    the handler runs the RPC adapter, then the adapter of the selected
    provider, then the price lookup, and answers 200 with the merge. *)
Lemma api_balances_runs env w params network address c nb td price :
  params !! "network" = Some network ->
  params !! "address" = Some address ->
  CHAIN_INFO !! network = Some c ->
  truthy address = true ->
  runs (native_source network c address) w nb [native_call network c address] ->
  runs (token_source env network c address) w td
    (token_calls env network c address) ->
  runs (getNativePriceUsd (Some (coinGeckoId c))) w price
    [Call_coingecko_price (Some (coinGeckoId c))] ->
  runs (api_balances env params) w
    {| statusCode := 200;
       content :=
         BalancesJson
           (merge network address c nb td (provider_native env network td)
              price) |}
    (native_call network c address
       :: token_calls env network c address
       ++ [Call_coingecko_price (Some (coinGeckoId c))])%list.
Proof.
  intros Hn Ha Hc Haddr Hnat Htok Hprice log.
  unfold api_balances. rewrite Hn, Ha, Haddr.
  rewrite (CHAIN_INFO_key_truthy _ _ Hc), (get_property_own _ _ _ Hc).
  cbn [negb orb truthy truthy_property field].
  unfold native_source, native_call in *.
  unfold token_source, token_calls, provider_native, selected_provider in *.
  unfold bind.
  destruct (String.eqb network "solana");
    destruct (truthy (env !! "MORALIS_API_KEY"));
    [ | | | destruct (truthy (env !! "COVALENT_API_KEY")) ];
    try (destruct (runs_functional _ _ _ _ _ _ Htok (runs_ret None w))
           as [-> _]);
    rewrite Hnat; try rewrite Htok;
    unfold bind, ret; rewrite Hprice;
    repeat rewrite <- app_assoc; cbn [app]; unfold merge.
  all: destruct nb, price; try destruct td as [[? ? [?|]]|]; reflexivity.
Qed.

Lemma native_source_unavailable network c address w r calls :
  runs (native_source network c address) w r calls ->
  native_unavailable w network c address = true -> r = None.
Proof.
  unfold native_source, native_unavailable. intros H Hu.
  destruct (String.eqb network "solana").
  - destruct (getSolanaBalance_runs (rpc c) address w) as [r' [H' Hnone]].
    destruct (runs_functional _ _ _ _ _ _ H H') as [-> _]. auto.
  - destruct (getEvmNativeBalance_runs (rpc c) address w) as [r' [H' Hnone]].
    destruct (runs_functional _ _ _ _ _ _ H H') as [-> _]. auto.
Qed.

Lemma token_source_unavailable env network c address w r calls :
  runs (token_source env network c address) w r calls ->
  tokens_unavailable env w network c address = true -> r = None.
Proof.
  unfold token_source, tokens_unavailable, selected_provider. intros H Hu.
  destruct (truthy (env !! "MORALIS_API_KEY")) eqn:Hm.
  - destruct (getMoralisBalances_runs (Some (moralisChain c)) address _ w Hm)
      as [r' [H' Hnone]].
    destruct (runs_functional _ _ _ _ _ _ H H') as [-> _]. auto.
  - destruct (String.eqb network "solana").
    + now destruct (runs_functional _ _ _ _ _ _ H (runs_ret None w)).
    + destruct (truthy (env !! "COVALENT_API_KEY")) eqn:Hc.
      * destruct (getCovalentBalances_runs (Some (chainId c)) address _ w Hc)
          as [r' [H' Hnone]].
        destruct (runs_functional _ _ _ _ _ _ H H') as [-> _]. auto.
      * now destruct (runs_functional _ _ _ _ _ _ H (runs_ret None w)).
Qed.

(** The Covalent adapter never surfaces a native balance, so what the
    selected provider surfaced is [nativeFromMoralis] of its result. *)
Lemma getCovalentBalances_no_native chainId address apiKey w log td calls :
  getCovalentBalances chainId address apiKey w log = (Returned (Some td), calls) ->
  nativeFromMoralis td = None.
Proof.
  unfold getCovalentBalances, try_catch, bind, fetch_api, response_json, ret,
    throw, lift.
  destruct (truthy apiKey); cbn; [|discriminate].
  destruct (covalent_balances w chainId address apiKey) as [[o st [j|]]|]; cbn;
    try destruct o; cbn; try discriminate.
  destruct (covalent_map_all _ _) as [[ts p]|]; cbn; try discriminate.
  intros H. now inversion H.
Qed.

(** The transactions endpoint, for a registered network and an address. *)
Lemma api_transactions_runs env w params network address c :
  params !! "network" = Some network ->
  params !! "address" = Some address ->
  CHAIN_INFO !! network = Some c ->
  truthy address = true ->
  exists txs calls,
    runs (api_transactions env params) w
      {| statusCode := 200;
         content :=
           TransactionsJson
             {| Transactions.network := network;
                Transactions.address := address;
                Transactions.transactions := txs |} |}
      calls
    /\ (transactions_unavailable env w network c address = true -> txs = None).
Proof.
  intros Hn Ha Hc Haddr.
  unfold api_transactions, transactions_unavailable.
  rewrite Hn, Ha, Haddr.
  rewrite (CHAIN_INFO_key_truthy _ _ Hc), (get_property_own _ _ _ Hc).
  cbn [negb orb truthy truthy_property field].
  destruct (String.eqb network "solana").
  - destruct (getSolanaSignatures_runs (rpc c) address w) as [r [H Hnone]].
    exists (Signatures <$> r), [Call_getSignaturesForAddress (rpc c) address].
    split.
    + intros log. unfold bind. rewrite H. reflexivity.
    + intros Hu. now rewrite (Hnone Hu).
  - destruct (truthy (env !! "MORALIS_API_KEY")) eqn:Hm.
    + destruct (getMoralisTransactions_runs (Some (moralisChain c)) address
                  _ w Hm) as [r [H Hnone]].
      eexists (MoralisTransactions <$> r), _. split.
      * intros log. unfold bind. rewrite H. reflexivity.
      * intros Hu. now rewrite (Hnone Hu).
    + destruct (truthy (env !! "COVALENT_API_KEY")) eqn:Hk.
      * destruct (getCovalentTransactions_runs (Some (chainId c)) address
                    _ w Hk) as [r [H Hnone]].
        eexists (CovalentTransactions <$> r), _. split.
        -- intros log. unfold bind. rewrite H. reflexivity.
        -- intros Hu. now rewrite (Hnone Hu).
      * exists None, []. split; [|reflexivity].
        intros log. unfold bind, ret. now rewrite app_nil_r.
Qed.

(** ** From the endpoints to the handler *)

Lemma serve_balances env w params r calls :
  runs (api_balances env params) w r calls ->
  serve env w (GET "/api/balances" params) = (Returned r, calls).
Proof.
  intros H. unfold serve, handleRequest, try_catch. cbn.
  now rewrite (H []).
Qed.

Lemma serve_transactions env w params r calls :
  runs (api_transactions env params) w r calls ->
  serve env w (GET "/api/transactions" params) = (Returned r, calls).
Proof.
  intros H. unfold serve, handleRequest, try_catch. cbn.
  now rewrite (H []).
Qed.

(** ** Provider selection *)

Lemma token_provider_calls_of_request env network c address :
  token_provider_calls
    (native_call network c address
       :: token_calls env network c address
       ++ [Call_coingecko_price (Some (coinGeckoId c))])%list
  = token_calls env network c address.
Proof.
  unfold token_provider_calls, native_call, token_calls.
  destruct (String.eqb network "solana"), (selected_provider env network)
    as [[|]|]; reflexivity.
Qed.

(** C1, as the code has it: a balances request for a registered network and
    an address is answered with 200 after at most one provider request, the
    one of the selected provider: Moralis when its key is configured
    (Solana and EVM alike), otherwise Covalent on an EVM network when its
    key is configured, otherwise none; the token list and the portfolio
    total of the response are those of that one adapter's result (absent
    when it has none), so results of the two providers are never merged. *)
Theorem at_most_one_token_provider env w params network address c :
  params !! "network" = Some network ->
  params !! "address" = Some address ->
  CHAIN_INFO !! network = Some c ->
  truthy address = true ->
  exists r calls td,
    serve env w (GET "/api/balances" params)
    = (Returned {| statusCode := 200; content := BalancesJson r |}, calls)
    /\ token_provider_calls calls
       = match selected_provider env network with
         | Some Moralis =>
             [Call_moralis_tokens (Some (moralisChain c)) address
                (env !! "MORALIS_API_KEY")]
         | Some Covalent =>
             [Call_covalent_balances (Some (chainId c)) address
                (env !! "COVALENT_API_KEY")]
         | None => []
         end
    /\ (length (token_provider_calls calls) <= 1)%nat
    /\ outcome (token_source env network c address) w = Returned td
    /\ Balances.tokenBalances r = tokens <$> td
    /\ Balances.tokenPortfolioValueUsd r = portfolioValueUsd <$> td
    /\ (selected_provider env network = None -> td = None).
Proof.
  intros Hn Ha Hc Haddr.
  destruct (native_source_runs network c address w) as [nb Hnb].
  destruct (token_source_runs env network c address w) as [td Htd].
  destruct (getNativePriceUsd_runs (Some (coinGeckoId c)) w) as [price [Hp _]].
  pose proof (api_balances_runs _ _ _ _ _ _ _ _ _ Hn Ha Hc Haddr Hnb Htd Hp)
    as Hrun.
  eexists _, _, td. split; [exact (serve_balances _ _ _ _ _ Hrun)|].
  rewrite token_provider_calls_of_request.
  split; [reflexivity|]. split.
  - unfold token_calls. destruct (selected_provider env network) as [[|]|];
      cbn; lia.
  - split; [exact (runs_outcome _ _ _ _ Htd)|].
    split; [reflexivity|]. split; [reflexivity|].
    intros Hsel. unfold token_source in Htd. rewrite Hsel in Htd.
    now destruct (runs_functional _ _ _ _ _ _ Htd (runs_ret None w)).
Qed.

Lemma at_most_one_token_provider_witness :
  exists r calls td,
    serve covalent_key covalent_inline_native
      (GET "/api/balances" (query "ethereum" "0xabc"))
    = (Returned {| statusCode := 200; content := BalancesJson r |}, calls)
    /\ token_provider_calls calls
       = match selected_provider covalent_key "ethereum" with
         | Some Moralis =>
             [Call_moralis_tokens (Some (moralisChain ethereum)) "0xabc"
                (covalent_key !! "MORALIS_API_KEY")]
         | Some Covalent =>
             [Call_covalent_balances (Some (chainId ethereum)) "0xabc"
                (covalent_key !! "COVALENT_API_KEY")]
         | None => []
         end
    /\ (length (token_provider_calls calls) <= 1)%nat
    /\ outcome (token_source covalent_key "ethereum" ethereum "0xabc")
         covalent_inline_native = Returned td
    /\ Balances.tokenBalances r = tokens <$> td
    /\ Balances.tokenPortfolioValueUsd r = portfolioValueUsd <$> td
    /\ (selected_provider covalent_key "ethereum" = None -> td = None).
Proof.
  apply (at_most_one_token_provider covalent_key covalent_inline_native
           (query "ethereum" "0xabc") "ethereum" "0xabc" ethereum);
    reflexivity.
Defined.

(** C1, as stated, fails: with no provider key configured, a valid request
    (registered network, address present) sends no provider request at
    all, not exactly one. *)
Lemma no_provider_queried_without_keys :
  CHAIN_INFO !! "ethereum" = Some ethereum
  /\ query "ethereum" "0xabc" !! "address" = Some "0xabc"
  /\ token_provider_calls
       (snd (serve no_keys offline
               (GET "/api/balances" (query "ethereum" "0xabc")))) = []
  /\ length
       (token_provider_calls
          (snd (serve no_keys offline
                  (GET "/api/balances" (query "ethereum" "0xabc"))))) <> 1%nat.
Proof. vm_compute. repeat split; congruence. Qed.

(** ** The token lists of the provider adapters *)



Lemma moralis_step_tokens st item :
  loop_tokens (moralis_step st item)
  = (loop_tokens st ++ moralis_listing item)%list.
Proof.
  unfold moralis_listing, moralis_step.
  destruct (strict_eq_string _ _); cbn; [now rewrite app_nil_r|].
  destruct (truthy (MoralisItem.native_token item)); cbn;
    [now rewrite app_nil_r | reflexivity].
Qed.

Lemma moralis_fold_tokens items :
  forall st,
    loop_tokens (fold_left moralis_step items st)
    = (loop_tokens st ++ flat_map moralis_listing items)%list.
Proof.
  induction items as [|item rest IH]; intros st; cbn.
  - now rewrite app_nil_r.
  - now rewrite IH, moralis_step_tokens, <- app_assoc.
Qed.


(** The Moralis loop keeps an inline native token out of the token list. *)
Lemma moralis_native_not_listed item :
  truthy (MoralisItem.native_token item) = true -> moralis_listing item = [].
Proof.
  intros H. unfold moralis_listing, moralis_step.
  destruct (strict_eq_string _ _); [reflexivity|]. now rewrite H.
Qed.

(** C2, at the failing input: Covalent reports one ether inline, flagged
    [native_token].  [getCovalentBalances] returns it as an entry of
    [tokens], adds its quote to [portfolioValueUsd] and surfaces no native
    value; the response then carries the ether both as [nativeValueUsd]
    and inside [tokenPortfolioValueUsd]. *)
Theorem covalent_lists_inline_native :
  outcome
    (getCovalentBalances (Some (NumericChainId 1)) "0xabc" (Some "c-key"))
    covalent_inline_native
  = Returned
      (Some {| tokens :=
                 [ {| contractName := Some "Ether";
                      symbol := Some "ETH";
                      balance := 1;
                      decimals := 18;
                      quote := 2000;
                      nativeToken := None |} ];
               portfolioValueUsd := 2000;
               nativeFromMoralis := None |})
  /\ exists r calls,
       serve covalent_key covalent_inline_native
         (GET "/api/balances" (query "ethereum" "0xabc"))
       = (Returned {| statusCode := 200; content := BalancesJson r |}, calls)
       /\ Balances.nativeBalance r = Some 1%float
       /\ Balances.nativeValueUsd r = Some 2000%float
       /\ Balances.tokenPortfolioValueUsd r = Some 2000%float
       /\ (length <$> Balances.tokenBalances r) = Some 1%nat.
Proof.
  split; [vm_compute; reflexivity|].
  eexists _, _. split; [vm_compute; reflexivity|].
  cbn. repeat split; reflexivity.
Qed.





(** ** Unit conversion *)



(** ** The merge of a balances request *)

Lemma balances_merge env w params network address c nb td price :
  params !! "network" = Some network ->
  params !! "address" = Some address ->
  CHAIN_INFO !! network = Some c ->
  truthy address = true ->
  outcome (native_source network c address) w = Returned nb ->
  outcome (token_source env network c address) w = Returned td ->
  outcome (getNativePriceUsd (Some (coinGeckoId c))) w = Returned price ->
  exists calls,
    serve env w (GET "/api/balances" params)
    = (Returned
         {| statusCode := 200;
            content :=
              BalancesJson
                (merge network address c nb td
                   (provider_native env network td) price) |},
       calls).
Proof.
  intros Hn Ha Hc Haddr Hnb Htd Hprice.
  destruct (native_source_runs network c address w) as [nb' Hnb'].
  destruct (token_source_runs env network c address w) as [td' Htd'].
  destruct (getNativePriceUsd_runs (Some (coinGeckoId c)) w)
    as [price' [Hp' _]].
  rewrite (runs_outcome _ _ _ _ Hnb') in Hnb.
  rewrite (runs_outcome _ _ _ _ Htd') in Htd.
  rewrite (runs_outcome _ _ _ _ Hp') in Hprice.
  inversion Hnb; inversion Htd; inversion Hprice; subst.
  eexists. apply serve_balances.
  exact (api_balances_runs _ _ _ _ _ _ _ _ _ Hn Ha Hc Haddr Hnb' Htd' Hp').
Qed.

(** C3: when the RPC adapter of the network yields no usable value
    ([null], or a number that is [NaN]) and the selected provider surfaced
    a native balance, the response's [nativeBalance] is the provider's. *)
Theorem native_balance_fallback env w params network address c nb td native :
  params !! "network" = Some network ->
  params !! "address" = Some address ->
  CHAIN_INFO !! network = Some c ->
  truthy address = true ->
  outcome (native_source network c address) w = Returned nb ->
  unusable nb = true ->
  outcome (token_source env network c address) w = Returned td ->
  provider_native env network td = Some native ->
  exists r calls,
    serve env w (GET "/api/balances" params)
    = (Returned {| statusCode := 200; content := BalancesJson r |}, calls)
    /\ Balances.nativeBalance r = Some (native_balance native).
Proof.
  intros Hn Ha Hc Haddr Hnb Hun Htd Hnative.
  destruct (getNativePriceUsd_runs (Some (coinGeckoId c)) w)
    as [price [Hp _]].
  destruct (balances_merge _ _ _ _ _ _ _ _ _ Hn Ha Hc Haddr Hnb Htd
              (runs_outcome _ _ _ _ Hp)) as [calls Hserve].
  eexists _, calls. split; [exact Hserve|].
  cbn. now rewrite Hun, Hnative.
Qed.

Lemma native_balance_fallback_witness :
  exists r calls,
    serve moralis_key only_moralis
      (GET "/api/balances" (query "ethereum" "0xabc"))
    = (Returned {| statusCode := 200; content := BalancesJson r |}, calls)
    /\ Balances.nativeBalance r = Some (native_balance surfaced_ether).
Proof.
  apply (native_balance_fallback moralis_key only_moralis
           (query "ethereum" "0xabc") "ethereum" "0xabc" ethereum None
           (Some only_native_data) surfaced_ether);
    vm_compute; reflexivity.
Defined.

(** C4, as the code has it: [nativeValueUsd] is the RPC native balance
    times the price when the RPC adapter and the price lookup both
    returned a value; otherwise it is the USD value of the native balance
    the selected provider surfaced, when it surfaced one, and [null] when
    it did not. *)
Theorem native_value_usd env w params network address c nb td price :
  params !! "network" = Some network ->
  params !! "address" = Some address ->
  CHAIN_INFO !! network = Some c ->
  truthy address = true ->
  outcome (native_source network c address) w = Returned nb ->
  outcome (token_source env network c address) w = Returned td ->
  outcome (getNativePriceUsd (Some (coinGeckoId c))) w = Returned price ->
  exists r calls,
    serve env w (GET "/api/balances" params)
    = (Returned {| statusCode := 200; content := BalancesJson r |}, calls)
    /\ Balances.nativeValueUsd r
       = match nb, price with
         | Some nativeBalance, Some priceUsd =>
             Some (nativeBalance * priceUsd)%float
         | _, _ => usd <$> provider_native env network td
         end.
Proof.
  intros Hn Ha Hc Haddr Hnb Htd Hprice.
  destruct (balances_merge _ _ _ _ _ _ _ _ _ Hn Ha Hc Haddr Hnb Htd Hprice)
    as [calls Hserve].
  eexists _, calls. split; [exact Hserve|]. reflexivity.
Qed.

Lemma native_value_usd_witness :
  exists r calls,
    serve no_keys covalent_inline_native
      (GET "/api/balances" (query "ethereum" "0xabc"))
    = (Returned {| statusCode := 200; content := BalancesJson r |}, calls)
    /\ Balances.nativeValueUsd r = Some (1 * 2000)%float.
Proof.
  apply (native_value_usd no_keys covalent_inline_native
           (query "ethereum" "0xabc") "ethereum" "0xabc" ethereum
           (Some 1%float) None (Some 2000%float));
    vm_compute; reflexivity.
Defined.

(** C4, as stated, fails: the RPC adapter and the price lookup both return
    [null], yet [nativeValueUsd] is 2000, the USD value Moralis reported
    for the native token. *)
Lemma native_value_without_price :
  outcome (native_source "ethereum" ethereum "0xabc") only_moralis
  = Returned None
  /\ outcome (getNativePriceUsd (Some (coinGeckoId ethereum))) only_moralis
     = Returned None
  /\ exists r calls,
       serve moralis_key only_moralis
         (GET "/api/balances" (query "ethereum" "0xabc"))
       = (Returned {| statusCode := 200; content := BalancesJson r |}, calls)
       /\ Balances.nativeValueUsd r = Some 2000%float.
Proof.
  split; [vm_compute; reflexivity|]. split; [vm_compute; reflexivity|].
  eexists _, _. split; [vm_compute; reflexivity|]. reflexivity.
Qed.

(** ** Degradation *)

(** The response to a valid balances request, with what each source
    returned; a source whose upstream answer is unavailable returned
    [null]. *)
Lemma balances_shape env w params network address c :
  params !! "network" = Some network ->
  params !! "address" = Some address ->
  CHAIN_INFO !! network = Some c ->
  truthy address = true ->
  exists calls nb td price,
    serve env w (GET "/api/balances" params)
    = (Returned
         {| statusCode := 200;
            content :=
              BalancesJson
                (merge network address c nb td
                   (provider_native env network td) price) |},
       calls)
    /\ (native_unavailable w network c address = true -> nb = None)
    /\ (tokens_unavailable env w network c address = true -> td = None)
    /\ (price_unavailable w c = true -> price = None).
Proof.
  intros Hn Ha Hc Haddr.
  destruct (native_source_runs network c address w) as [nb Hnb].
  destruct (token_source_runs env network c address w) as [td Htd].
  destruct (getNativePriceUsd_runs (Some (coinGeckoId c)) w)
    as [price [Hp Hpnone]].
  eexists _, nb, td, price. split.
  - apply serve_balances.
    exact (api_balances_runs _ _ _ _ _ _ _ _ _ Hn Ha Hc Haddr Hnb Htd Hp).
  - split; [exact (native_source_unavailable _ _ _ _ _ _ Hnb)|].
    split; [exact (token_source_unavailable _ _ _ _ _ _ _ Htd)|].
    exact Hpnone.
Qed.


(** C6: with neither provider key configured, the response to a valid
    balances request has [tokenBalances] and [tokenPortfolioValueUsd]
    [null], and the response to a valid transactions request on an EVM
    network has [transactions] [null]. *)
Theorem no_provider_key (env : gmap string string) (w : world)
    (params : gmap string string) (network address : string) (c : chain) :
  params !! "network" = Some network ->
  params !! "address" = Some address ->
  CHAIN_INFO !! network = Some c ->
  truthy address = true ->
  truthy (env !! "MORALIS_API_KEY") = false ->
  truthy (env !! "COVALENT_API_KEY") = false ->
  (exists r calls,
      serve env w (GET "/api/balances" params)
      = (Returned {| statusCode := 200; content := BalancesJson r |}, calls)
      /\ Balances.tokenBalances r = None
      /\ Balances.tokenPortfolioValueUsd r = None)
  /\ (String.eqb network "solana" = false ->
      exists t calls,
        serve env w (GET "/api/transactions" params)
        = (Returned {| statusCode := 200; content := TransactionsJson t |},
           calls)
        /\ Transactions.transactions t = None).
Proof.
  intros Hn Ha Hc Haddr Hm Hk. split.
  - destruct (balances_shape env w _ _ _ _ Hn Ha Hc Haddr)
      as (calls & nb & td & price & Hserve & _ & Htd & _).
    assert (td = None) as ->.
    { apply Htd. unfold tokens_unavailable, selected_provider.
      rewrite Hm, Hk. now destruct (String.eqb network "solana"). }
    eexists _, calls. split; [exact Hserve|]. split; reflexivity.
  - intros Hevm.
    destruct (api_transactions_runs env w _ _ _ _ Hn Ha Hc Haddr)
      as (txs & calls & Hrun & Hnone).
    eexists _, calls. split; [exact (serve_transactions _ _ _ _ _ Hrun)|].
    cbn. apply Hnone. unfold transactions_unavailable.
    now rewrite Hevm, Hm, Hk.
Qed.

Lemma no_provider_key_witness :
  (exists r calls,
      serve no_keys covalent_inline_native
        (GET "/api/balances" (query "ethereum" "0xabc"))
      = (Returned {| statusCode := 200; content := BalancesJson r |}, calls)
      /\ Balances.tokenBalances r = None
      /\ Balances.tokenPortfolioValueUsd r = None)
  /\ (String.eqb "ethereum" "solana" = false ->
      exists t calls,
        serve no_keys covalent_inline_native
          (GET "/api/transactions" (query "ethereum" "0xabc"))
        = (Returned {| statusCode := 200; content := TransactionsJson t |},
           calls)
        /\ Transactions.transactions t = None).
Proof.
  apply (no_provider_key no_keys covalent_inline_native
           (query "ethereum" "0xabc") "ethereum" "0xabc" ethereum);
    reflexivity.
Defined.



(** ** Validation *)

(** Both endpoints answer 400 when the guard fails: a parameter is missing
    or empty, or the network names neither a registered chain nor a
    property of [Object.prototype]. *)
Lemma validation_rejects env w params :
  passes_validation params = false ->
  serve env w (GET "/api/balances" params) = rejected
  /\ serve env w (GET "/api/transactions" params) = rejected.
Proof.
  unfold passes_validation, serve, handleRequest, try_catch, api_balances,
    api_transactions, rejected.
  cbn [method pathname searchParams GET].
  intros H.
  destruct (params !! "network") as [network|];
    destruct (params !! "address") as [address|]; try (split; reflexivity).
  destruct (truthy network), (truthy address),
    (truthy (get_property CHAIN_INFO network)); try discriminate;
    split; reflexivity.
Qed.

Lemma unknown_network_rejected env w network address :
  get_property CHAIN_INFO network = Undefined ->
  serve env w (GET "/api/balances" (query network address)) = rejected
  /\ serve env w (GET "/api/transactions" (query network address)) = rejected.
Proof.
  intros H. apply validation_rejects. unfold passes_validation.
  assert (query network address !! "network" = Some network) as ->.
  { unfold query. cbn. now rewrite lookup_insert_eq. }
  destruct (query network address !! "address"); [|reflexivity].
  rewrite H. cbn. now rewrite andb_false_r.
Qed.

(** The names that pass the guard are the five registered networks and the
    twelve properties inherited from [Object.prototype]. *)
Lemma get_property_truthy network :
  truthy (get_property CHAIN_INFO network) = true ->
  In network ["ethereum"; "polygon"; "binance"; "base"; "solana"]
  \/ In network Object_prototype_properties.
Proof.
  unfold get_property.
  destruct (CHAIN_INFO !! network) as [c|] eqn:Hc.
  - intros _. left. exact (CHAIN_INFO_lookup _ _ Hc).
  - destruct (existsb _ _) eqn:Hex; [|discriminate].
    intros _. right. apply existsb_exists in Hex as (name & Hin & Heq).
    apply String.eqb_eq in Heq. now subst.
Qed.

(** C5, at the failing input: [network=constructor] is none of the five
    recognized identifiers, yet [CHAIN_INFO['constructor']] is the inherited
    [Object] function, which is truthy; the request passes the guard and
    both endpoints answer 200 instead of 400, whatever the configuration
    and the upstream answers. *)
Theorem inherited_name_passes_validation
    (env : gmap string string) (w : world) :
  ~ In "constructor" ["ethereum"; "polygon"; "binance"; "base"; "solana"]
  /\ get_property CHAIN_INFO "constructor" = Inherited "constructor"
  /\ (exists r calls,
        serve env w (GET "/api/balances" (query "constructor" "0xabc"))
        = (Returned {| statusCode := 200; content := BalancesJson r |}, calls))
  /\ (exists t calls,
        serve env w (GET "/api/transactions" (query "constructor" "0xabc"))
        = (Returned {| statusCode := 200; content := TransactionsJson t |},
           calls)).
Proof.
  assert (Hn : query "constructor" "0xabc" !! "network" = Some "constructor")
    by reflexivity.
  assert (Ha : query "constructor" "0xabc" !! "address" = Some "0xabc")
    by reflexivity.
  assert (Hp : get_property CHAIN_INFO "constructor" = Inherited "constructor")
    by (vm_compute; reflexivity).
  split; [cbn; intuition discriminate|]. split; [exact Hp|]. split.
  - destruct (getNativePriceUsd_runs None w) as [price [Hprice _]].
    assert (exists r calls, runs (api_balances env (query "constructor" "0xabc"))
                         w {| statusCode := 200; content := BalancesJson r |}
                         calls) as (r & calls & Hrun).
    { unfold api_balances. rewrite Hn, Ha, Hp.
      cbn [truthy truthy_string truthy_property negb orb String.eqb Ascii.eqb
           Bool.eqb field andb].
      destruct (truthy (env !! "MORALIS_API_KEY")) eqn:Hm.
      - destruct (getMoralisBalances_runs None "0xabc" _ w Hm) as [td [Htd _]].
        eexists _, _. intros log. unfold bind.
        rewrite (getEvmNativeBalance_undefined "0xabc" w log).
        rewrite Htd. unfold ret, bind. rewrite Hprice.
        rewrite app_nil_r, <- app_assoc. reflexivity.
      - destruct (truthy (env !! "COVALENT_API_KEY")) eqn:Hk.
        + destruct (getCovalentBalances_runs None "0xabc" _ w Hk)
            as [td [Htd _]].
          eexists _, _. intros log. unfold bind.
          rewrite (getEvmNativeBalance_undefined "0xabc" w log).
          rewrite Htd. unfold ret, bind. rewrite Hprice.
        rewrite app_nil_r, <- app_assoc. reflexivity.
        + eexists _, _. intros log. unfold bind.
          rewrite (getEvmNativeBalance_undefined "0xabc" w log).
          unfold ret, bind. rewrite Hprice. rewrite app_nil_r. reflexivity. }
    eexists r, calls. exact (serve_balances _ _ _ _ _ Hrun).
  - assert (exists t calls,
               runs (api_transactions env (query "constructor" "0xabc")) w
                 {| statusCode := 200; content := TransactionsJson t |} calls)
      as (t & calls & Hrun).
    { unfold api_transactions. rewrite Hn, Ha, Hp.
      cbn [truthy truthy_string truthy_property negb orb String.eqb Ascii.eqb
           Bool.eqb field andb].
      destruct (truthy (env !! "MORALIS_API_KEY")) eqn:Hm.
      - destruct (getMoralisTransactions_runs None "0xabc" _ w Hm)
          as [txs [Htxs _]].
        eexists _, _. intros log. unfold bind. rewrite Htxs. reflexivity.
      - destruct (truthy (env !! "COVALENT_API_KEY")) eqn:Hk.
        + destruct (getCovalentTransactions_runs None "0xabc" _ w Hk)
            as [txs [Htxs _]].
          eexists _, _. intros log. unfold bind. rewrite Htxs. reflexivity.
        + eexists _, []. intros log. unfold bind, ret.
          now rewrite app_nil_r. }
    eexists t, calls. exact (serve_transactions _ _ _ _ _ Hrun).
Qed.

(** * Further properties of the code *)

(** ** The environment loader *)

Lemma load_line_binding env line :
  load_line env line
  = match line_binding line with
    | Some (key, value) =>
        if env_unset env key then <[key := value]> env else env
    | None => env
    end.
Proof.
  unfold load_line, line_binding.
  destruct (_ || is_comment line); reflexivity.
Qed.

Lemma env_unset_lookup (env : gmap string string) key :
  env_unset env key = true -> env !! key = None \/ env !! key = Some "".
Proof.
  unfold env_unset, get_property.
  destruct (env !! key) as [v|]; [|now left].
  intros H. right. f_equal. cbn in H. unfold truthy_string in H.
  apply negb_true_iff, negb_false_iff in H. now apply String.eqb_eq in H.
Qed.

Lemma env_unset_insert_eq (env : gmap string string) key value :
  env_unset (<[key := value]> env) key = negb (truthy value).
Proof. unfold env_unset, get_property. now rewrite lookup_insert_eq. Qed.

Lemma env_unset_insert_ne (env : gmap string string) key key' value :
  key' <> key ->
  env_unset (<[key' := value]> env) key = env_unset env key.
Proof.
  intros H. unfold env_unset, get_property. now rewrite lookup_insert_ne.
Qed.

Lemma load_line_keeps (env : gmap string string) line k v :
  env !! k = Some v ->
  exists v', load_line env line !! k = Some v' /\ (v <> "" -> v' = v).
Proof.
  intros Hk. rewrite load_line_binding.
  destruct (line_binding line) as [[key value]|]; [|eauto].
  destruct (env_unset env key) eqn:Hu; [|eauto].
  destruct (decide (key = k)) as [->|Hne].
  - rewrite lookup_insert_eq. eexists; split; [reflexivity|].
    intros Hv. apply env_unset_lookup in Hu as [Hu|Hu]; congruence.
  - rewrite lookup_insert_ne by assumption. eauto.
Qed.

(** X1: loading the [.env] file never removes a variable of the process
    environment and never changes one that is set to a non-empty value:
    the environment takes precedence over the file. *)
Theorem load_env_keeps_variables file (env : gmap string string) k v :
  env !! k = Some v ->
  exists v', load_env file env !! k = Some v' /\ (v <> "" -> v' = v).
Proof.
  unfold load_env. destruct file as [text|]; [|eauto].
  generalize (split_lines [] (list_ascii_of_string text)). intros envLines.
  revert env v. induction envLines as [|line rest IH]; intros env v Hk; cbn.
  - eauto.
  - destruct (load_line_keeps env line k v Hk) as (v1 & H1 & Hsame).
    destruct (IH _ _ H1) as (v' & H' & Hsame').
    exists v'. split; [exact H'|].
    intros Hv. specialize (Hsame Hv). subst v1. exact (Hsame' Hv).
Qed.

Lemma load_env_keeps_variables_witness :
  exists v',
    load_env (Some "PORT=8080") {[ "PORT" := "3000" ]} !! "PORT" = Some v'
    /\ ("3000" <> "" -> v' = "3000").
Proof.
  apply (load_env_keeps_variables (Some "PORT=8080") {[ "PORT" := "3000" ]}
           "PORT" "3000").
  reflexivity.
Defined.

Lemma falsy_string (v : string) : truthy v = false -> v = "".
Proof.
  unfold truthy, truthy_string. intros H.
  apply negb_false_iff in H. now apply String.eqb_eq in H.
Qed.

Lemma load_line_settles (env : gmap string string) line :
  load_line (load_line env line) line = load_line env line.
Proof.
  rewrite !load_line_binding.
  destruct (line_binding line) as [[k v]|]; [|reflexivity].
  destruct (env_unset env k) eqn:Hu; [|now rewrite Hu].
  rewrite env_unset_insert_eq.
  destruct (truthy v); cbn; [reflexivity|]. apply insert_insert_eq.
Qed.

Lemma load_line_stays (env : gmap string string) line line' :
  load_line env line = env ->
  load_line (load_line env line') line = load_line env line'.
Proof.
  rewrite !load_line_binding.
  destruct (line_binding line) as [[k v]|]; [|reflexivity].
  destruct (line_binding line') as [[k' v']|]; [|trivial].
  destruct (env_unset env k') eqn:Hu'; [|trivial].
  intros H. destruct (decide (k' = k)) as [->|Hne].
  - rewrite env_unset_insert_eq, Hu' in *.
    destruct (truthy v') eqn:Hv'; cbn; [reflexivity|].
    assert (Hk : env !! k = Some v) by (rewrite <- H; apply lookup_insert_eq).
    apply env_unset_lookup in Hu' as [Hu'|Hu']; [congruence|].
    rewrite insert_insert_eq. apply falsy_string in Hv'. congruence.
  - rewrite env_unset_insert_ne by assumption.
    destruct (env_unset env k); [|reflexivity].
    rewrite insert_insert_ne by congruence. now rewrite H.
Qed.

Lemma load_lines_stay envLines :
  forall (env : gmap string string) line,
    load_line env line = env ->
    load_line (fold_left load_line envLines env) line
    = fold_left load_line envLines env.
Proof.
  induction envLines as [|line' rest IH]; intros env line H; cbn; [exact H|].
  apply IH. now apply load_line_stays.
Qed.

Lemma load_lines_settled envLines :
  forall env : gmap string string,
    Forall (fun line =>
              load_line (fold_left load_line envLines env) line
              = fold_left load_line envLines env)
      envLines.
Proof.
  induction envLines as [|line rest IH]; intros env; cbn; constructor.
  - apply load_lines_stay, load_line_settles.
  - apply IH.
Qed.

Lemma load_lines_fixed envLines (env : gmap string string) :
  Forall (fun line => load_line env line = env) envLines ->
  fold_left load_line envLines env = env.
Proof.
  induction 1 as [|line rest Hline _ IH]; cbn; [reflexivity|].
  now rewrite Hline.
Qed.

(** X2: loading is idempotent: a second pass over the same file changes
    nothing, whatever the file holds (repeated keys, empty values, names
    of inherited properties). *)
Theorem load_env_idempotent file (env : gmap string string) :
  load_env file (load_env file env) = load_env file env.
Proof.
  unfold load_env. destruct file as [text|]; [|reflexivity].
  apply load_lines_fixed, load_lines_settled.
Qed.









(** ** What the RPC and price adapters return *)

(** X4: [getEvmNativeBalance] never throws, and it returns a number only
    for a successful response whose [result] is a non-empty string that
    [BigInt] accepts; the number is then [Number(wei) / 1e18].  In every
    other case (transport failure, status, undecodable body, missing or
    empty [result], a [result] that is no integer literal) it returns
    [null]. *)
Theorem getEvmNativeBalance_result u address w :
  (exists r, outcome (getEvmNativeBalance (Some u) address) w = Returned r)
  /\ forall b,
       outcome (getEvmNativeBalance (Some u) address) w = Returned (Some b)
       <-> exists response json hex wei,
             eth_getBalance w u address = Some response
             /\ ok response = true
             /\ json_body response = Some json
             /\ EvmRpc.result json = Some hex
             /\ hex <> ""
             /\ BigInt hex = Returned wei
             /\ b = (Number_of_BigInt wei / 1e18)%float.
Proof.
  split.
  - destruct (getEvmNativeBalance_runs u address w) as [r [H _]].
    exists r. exact (runs_outcome _ _ _ _ H).
  - intros b.
    unfold outcome, getEvmNativeBalance, try_catch, jsonRpcRequest, bind,
      fetch, response_json, ret, throw, lift.
    destruct (eth_getBalance w u address) as [[o st [[[hex|]]|]]|] eqn:Hw;
      cbn.
    + destruct o; cbn.
      * destruct (truthy hex) eqn:Hhex; cbn.
        -- destruct (BigInt hex) as [wei|e] eqn:Hwei; cbn.
           ++ split.
              ** intros H. inversion H. exists {| ok := true; status := st;
                   json_body := Some {| EvmRpc.result := Some hex |} |},
                   {| EvmRpc.result := Some hex |}, hex, wei.
                 repeat split; try reflexivity; try assumption.
                 intros ->. discriminate.
              ** intros (response & json & hex' & wei' & Hr & _ & Hj & Hx
                          & _ & Hb & ->).
                 inversion Hr; subst; cbn in Hj. inversion Hj; subst.
                 cbn in Hx. inversion Hx; subst. congruence.
           ++ split; [discriminate|].
              intros (response & json & hex' & wei' & Hr & _ & Hj & Hx
                        & _ & Hb & _).
              inversion Hr; subst; cbn in Hj. inversion Hj; subst.
              cbn in Hx. inversion Hx; subst. congruence.
        -- split; [discriminate|].
           intros (response & json & hex' & wei' & Hr & _ & Hj & Hx
                     & Hne & _).
           inversion Hr; subst; cbn in Hj. inversion Hj; subst.
           cbn in Hx. inversion Hx; subst.
           apply falsy_string in Hhex. contradiction.
      * split; [discriminate|].
        intros (response & json & hex' & wei' & Hr & Hok & _).
        inversion Hr; subst. discriminate.
    + destruct o; cbn; (split; [discriminate|]);
        intros (response & json & hex' & wei' & Hr & Hok & Hj & Hx & _);
        inversion Hr; subst; cbn in *; try discriminate.
      inversion Hj; subst. discriminate.
    + destruct o; cbn; (split; [discriminate|]);
        intros (response & json & hex' & wei' & Hr & Hok & Hj & _);
        inversion Hr; subst; cbn in *; discriminate.
    + split; [discriminate|].
      intros (response & json & hex' & wei' & Hr & _). discriminate.
Qed.

(** X5: [getSolanaBalance] never throws, and it returns a number exactly
    for a successful response that carries [result.value]; the number is
    [value / 1e9], so a balance of zero lamports is reported as 0 and not
    as [null]. *)
Theorem getSolanaBalance_result u address w :
  (exists r, outcome (getSolanaBalance (Some u) address) w = Returned r)
  /\ forall b,
       outcome (getSolanaBalance (Some u) address) w = Returned (Some b)
       <-> exists response json lamports,
             solana_getBalance w u address = Some response
             /\ ok response = true
             /\ json_body response = Some json
             /\ SolanaBalance.result json ≫= SolanaBalance.value
                = Some lamports
             /\ b = (lamports / 1e9)%float.
Proof.
  split.
  - destruct (getSolanaBalance_runs u address w) as [r [H _]].
    exists r. exact (runs_outcome _ _ _ _ H).
  - intros b.
    unfold outcome, getSolanaBalance, try_catch, bind, fetch, response_json,
      ret, throw.
    destruct (solana_getBalance w u address) as [[o st [json|]]|] eqn:Hw; cbn.
    + destruct o; cbn.
      * destruct (SolanaBalance.result json ≫= SolanaBalance.value)
          as [lamports|] eqn:Hl; cbn.
        -- split.
           ++ intros H. inversion H. eexists _, json, lamports.
              repeat split; try reflexivity. exact Hl.
           ++ intros (response & json' & lamports' & Hr & _ & Hj & Hl' & ->).
              inversion Hr; subst; cbn in Hj. inversion Hj; subst. congruence.
        -- split; [discriminate|].
           intros (response & json' & lamports' & Hr & _ & Hj & Hl' & _).
           inversion Hr; subst; cbn in Hj. inversion Hj; subst. congruence.
      * split; [discriminate|].
        intros (response & json' & lamports' & Hr & Hok & _).
        inversion Hr; subst. discriminate.
    + destruct o; cbn; (split; [discriminate|]);
        intros (response & json' & lamports' & Hr & Hok & Hj & _);
        inversion Hr; subst; cbn in *; discriminate.
    + split; [discriminate|].
      intros (response & json' & lamports' & Hr & _). discriminate.
Qed.

(** X6: [getNativePriceUsd] never throws, and it returns a price exactly
    for a successful response whose object has an entry for the coin id
    with a [usd] field; a response without that entry (an id the price
    service does not know) gives [null]. *)
Theorem getNativePriceUsd_result id w :
  (exists r, outcome (getNativePriceUsd id) w = Returned r)
  /\ forall p,
       outcome (getNativePriceUsd id) w = Returned (Some p)
       <-> exists response (json : gmap string CoinGecko.entry) entry,
             coingecko_price w id = Some response
             /\ ok response = true
             /\ json_body response = Some json
             /\ json !! property_key id = Some entry
             /\ CoinGecko.usd entry = Some p.
Proof.
  split.
  - destruct (getNativePriceUsd_runs id w) as [r [H _]].
    exists r. exact (runs_outcome _ _ _ _ H).
  - intros p.
    unfold outcome, getNativePriceUsd, try_catch, bind, fetch_api,
      response_json, ret, throw.
    destruct (coingecko_price w id) as [[o st [json|]]|] eqn:Hw; cbn.
    + destruct o; cbn.
      * destruct ((json : gmap string CoinGecko.entry) !! property_key id)
          as [entry|] eqn:He; cbn.
        -- destruct (CoinGecko.usd entry) as [price|] eqn:Hu; cbn.
           ++ split.
              ** intros H. inversion H; subst. eexists _, json, entry.
                 repeat split; try reflexivity; assumption.
              ** intros (response & json' & entry' & Hr & _ & Hj & He' & Hu').
                 inversion Hr; subst; cbn in Hj. inversion Hj; subst.
                 congruence.
           ++ split; [discriminate|].
              intros (response & json' & entry' & Hr & _ & Hj & He' & Hu').
              inversion Hr; subst; cbn in Hj. inversion Hj; subst.
              congruence.
        -- split; [discriminate|].
           intros (response & json' & entry' & Hr & _ & Hj & He' & Hu').
           inversion Hr; subst; cbn in Hj. inversion Hj; subst. congruence.
      * split; [discriminate|].
        intros (response & json' & entry' & Hr & Hok & _).
        inversion Hr; subst. discriminate.
    + destruct o; cbn; (split; [discriminate|]);
        intros (response & json' & entry' & Hr & Hok & Hj & _);
        inversion Hr; subst; cbn in *; discriminate.
    + split; [discriminate|].
      intros (response & json' & entry' & Hr & _). discriminate.
Qed.

(** X7: [getSolanaSignatures] returns [null] exactly when the RPC answer
    is unavailable; a decoded response without [result] gives the empty
    list, not [null]. *)
Theorem getSolanaSignatures_result u address w :
  (outcome (getSolanaSignatures (Some u) address) w = Returned None
   <-> unavailable (solana_getSignaturesForAddress w u address) = true)
  /\ forall response json,
       solana_getSignaturesForAddress w u address = Some response ->
       ok response = true ->
       json_body response = Some json ->
       outcome (getSolanaSignatures (Some u) address) w
       = Returned (Some (default [] (SolanaSignatures.result json))).
Proof.
  unfold outcome, getSolanaSignatures, try_catch, bind, fetch, response_json,
    ret, throw, unavailable.
  destruct (solana_getSignaturesForAddress w u address) as [[o st [json|]]|];
    cbn; try destruct o; cbn; split;
    try (split; (discriminate || reflexivity));
    try (intros response json' Hr Hok Hj; inversion Hr; subst; cbn in *;
         congruence).
Qed.

Lemma getSolanaSignatures_result_witness :
  outcome (getSolanaSignatures (Some (rpc solana)) "So1ana") no_signatures
  = Returned (Some []).
Proof.
  exact (proj2 (getSolanaSignatures_result (rpc solana) "So1ana"
                  no_signatures)
           {| ok := true; status := 200;
              json_body := Some {| SolanaSignatures.result := None |} |}
           {| SolanaSignatures.result := None |} eq_refl eq_refl eq_refl).
Defined.

(** ** What the provider adapters return *)

Lemma covalent_map_all_total items :
  forall p ts p',
    covalent_map_all p items = Returned (ts, p') ->
    p' = fold_left PrimFloat.add (map quote ts) p.
Proof.
  induction items as [|item rest IH]; intros p ts p' H; cbn in H.
  - now inversion H.
  - unfold covalent_map in H.
    destruct (BigInt _) as [raw|]; [|discriminate].
    destruct (covalent_map_all _ rest) as [[ts' q']|] eqn:Hrest;
      [|discriminate].
    inversion H; subst. cbn. exact (IH _ _ _ Hrest).
Qed.

Lemma moralis_step_total st item :
  loop_portfolioValueUsd (moralis_step st item)
  = fold_left PrimFloat.add (map quote (moralis_listing item))
      (loop_portfolioValueUsd st).
Proof.
  unfold moralis_listing, moralis_step.
  destruct (strict_eq_string _ _); [reflexivity|].
  destruct (truthy (MoralisItem.native_token item)); reflexivity.
Qed.

Lemma moralis_fold_total items :
  forall st,
    loop_portfolioValueUsd (fold_left moralis_step items st)
    = fold_left PrimFloat.add (map quote (flat_map moralis_listing items))
        (loop_portfolioValueUsd st).
Proof.
  induction items as [|item rest IH]; intros st; cbn; [reflexivity|].
  now rewrite IH, moralis_step_total, map_app, fold_left_app.
Qed.

Lemma getCovalentBalances_total chainId address apiKey w log td calls :
  getCovalentBalances chainId address apiKey w log
  = (Returned (Some td), calls) ->
  portfolioValueUsd td = sum_quotes (tokens td).
Proof.
  unfold getCovalentBalances, try_catch, bind, fetch_api, response_json,
    ret, throw, lift.
  destruct (truthy apiKey); cbn; [|discriminate].
  destruct (covalent_balances w chainId address apiKey)
    as [[o st [j|]]|]; cbn; try destruct o; cbn; try discriminate.
  destruct (covalent_map_all _ _) as [[ts p]|] eqn:Hall; cbn;
    try discriminate.
  intros H. inversion H; subst. cbn.
  exact (covalent_map_all_total _ _ _ _ Hall).
Qed.

Lemma getMoralisBalances_total chainSlug address apiKey w log td calls :
  getMoralisBalances chainSlug address apiKey w log
  = (Returned (Some td), calls) ->
  portfolioValueUsd td = sum_quotes (tokens td).
Proof.
  unfold getMoralisBalances, try_catch, bind, fetch_api, response_json,
    ret, throw.
  destruct (truthy apiKey); cbn; [|discriminate].
  destruct (moralis_tokens w chainSlug address apiKey)
    as [[o st [j|]]|]; cbn; try destruct o; cbn; try discriminate.
  intros H. inversion H; subst. cbn. unfold sum_quotes.
  now rewrite moralis_fold_total, moralis_fold_tokens.
Qed.

(** X8: for both providers the portfolio total an adapter returns is the
    sum of the quotes of the tokens it returns, added in list order from
    0: nothing that is left out of the list (a zero balance, a native
    token on the Moralis side) is counted in the total. *)
Theorem portfolio_is_sum_of_quotes :
  (forall chainId address apiKey w log td calls,
      getCovalentBalances chainId address apiKey w log
      = (Returned (Some td), calls) ->
      portfolioValueUsd td = sum_quotes (tokens td))
  /\ (forall chainSlug address apiKey w log td calls,
        getMoralisBalances chainSlug address apiKey w log
        = (Returned (Some td), calls) ->
        portfolioValueUsd td = sum_quotes (tokens td)).
Proof.
  split.
  - exact getCovalentBalances_total.
  - exact getMoralisBalances_total.
Qed.

Lemma portfolio_is_sum_of_quotes_witness :
  portfolioValueUsd covalent_portfolio_data
  = sum_quotes (tokens covalent_portfolio_data).
Proof.
  apply (proj1 portfolio_is_sum_of_quotes (Some (NumericChainId 1)) "0xabc"
           (Some "c-key") covalent_portfolio [] covalent_portfolio_data
           [Call_covalent_balances (Some (NumericChainId 1)) "0xabc"
              (Some "c-key")]).
  vm_compute. reflexivity.
Defined.

Lemma moralis_listing_not_native item t :
  In t (moralis_listing item) -> nativeToken t = Some false.
Proof.
  unfold moralis_listing, moralis_step.
  destruct (strict_eq_string _ _); [contradiction|].
  destruct (truthy (MoralisItem.native_token item)); [contradiction|].
  cbn. intros [<-|[]]. reflexivity.
Qed.

(** X9: given a key and a successful, decodable answer, [getMoralisBalances]
    always returns a result, whatever the items hold: a balance that is no
    integer literal is read with [parseFloat] and the other items are
    kept.  Every token it lists is marked [nativeToken: false]. *)
Theorem getMoralisBalances_tolerates_items
    chainSlug address apiKey w response json :
  truthy apiKey = true ->
  moralis_tokens w chainSlug address apiKey = Some response ->
  ok response = true ->
  json_body response = Some json ->
  exists td,
    outcome (getMoralisBalances chainSlug address apiKey) w
    = Returned (Some td)
    /\ tokens td
       = flat_map moralis_listing (default [] (MoralisBalances.result json))
    /\ Forall (fun t => nativeToken t = Some false) (tokens td).
Proof.
  intros Hkey Hw Hok Hj.
  unfold outcome, getMoralisBalances, try_catch, bind, fetch_api,
    response_json, ret, throw.
  rewrite Hkey; cbn. rewrite Hw; cbn. rewrite Hok; cbn. rewrite Hj; cbn.
  eexists. split; [reflexivity|]. cbn. rewrite moralis_fold_tokens. cbn.
  split; [reflexivity|].
  apply List.Forall_forall. intros t Ht.
  apply in_flat_map in Ht as (item & _ & Ht).
  exact (moralis_listing_not_native _ _ Ht).
Qed.

Lemma getMoralisBalances_tolerates_items_witness :
  exists td,
    outcome (getMoralisBalances (Some "eth") "0xabc" (Some "m-key"))
      fractional_balances
    = Returned (Some td)
    /\ tokens td
       = flat_map moralis_listing
           [moralis_priced_holding; moralis_fractional_holding]
    /\ Forall (fun t => nativeToken t = Some false) (tokens td).
Proof.
  exact (getMoralisBalances_tolerates_items (Some "eth") "0xabc"
           (Some "m-key") fractional_balances _ _ eq_refl eq_refl eq_refl
           eq_refl).
Defined.

Lemma covalent_map_all_rejects items :
  forall p,
    (exists e, covalent_map_all p items = Thrown e)
    <-> existsb covalent_rejected_balance items = true.
Proof.
  induction items as [|item rest IH]; intros p; cbn.
  - split; [intros [e H]; discriminate | discriminate].
  - unfold covalent_map, covalent_rejected_balance.
    destruct (BigInt _) as [raw|e]; cbn.
    + rewrite <- (IH (p + or_else (CovalentItem.quote item) 0)%float).
      destruct (covalent_map_all _ rest) as [[ts q]|e'].
      * split; intros [e H]; discriminate.
      * split; intros _; eauto.
    + split; eauto.
Qed.

(** X10: given a key and a successful, decodable answer,
    [getCovalentBalances] returns [null] exactly when some item that
    passes the filter has a balance [BigInt] rejects: one such item
    discards the whole token list. *)
Theorem getCovalentBalances_all_or_nothing
    chainId address apiKey w response json :
  truthy apiKey = true ->
  covalent_balances w chainId address apiKey = Some response ->
  ok response = true ->
  json_body response = Some json ->
  outcome (getCovalentBalances chainId address apiKey) w = Returned None
  <-> existsb covalent_rejected_balance
        (List.filter covalent_filter
           (default []
              (CovalentBalances.data json ≫= CovalentBalances.items)))
      = true.
Proof.
  intros Hkey Hw Hok Hj.
  rewrite <- (covalent_map_all_rejects _ 0%float).
  unfold outcome, getCovalentBalances, try_catch, bind, fetch_api,
    response_json, ret, throw, lift.
  rewrite Hkey; cbn. rewrite Hw; cbn. rewrite Hok; cbn. rewrite Hj; cbn.
  destruct (covalent_map_all _ _) as [[ts p]|e]; cbn.
  - split; [discriminate | intros [e H]; discriminate].
  - split; eauto.
Qed.

Lemma getCovalentBalances_all_or_nothing_witness :
  outcome (getCovalentBalances (Some (NumericChainId 1)) "0xabc"
             (Some "c-key")) fractional_balances
  = Returned None.
Proof.
  apply (getCovalentBalances_all_or_nothing (Some (NumericChainId 1)) "0xabc"
           (Some "c-key") fractional_balances _ _ eq_refl eq_refl eq_refl
           eq_refl).
  reflexivity.
Defined.

Lemma moralis_step_native st item :
  loop_nativeFromMoralis (moralis_step st item)
  = if moralis_native_item item
    then loop_nativeFromMoralis (moralis_step moralis_loop_init item)
    else loop_nativeFromMoralis st.
Proof.
  unfold moralis_native_item, moralis_step, strict_eq_string.
  destruct (truthy (MoralisItem.native_token item));
    destruct (strict_ne_string _ _); reflexivity.
Qed.

Lemma moralis_step_native_some item :
  moralis_native_item item = true ->
  exists n,
    loop_nativeFromMoralis (moralis_step moralis_loop_init item) = Some n.
Proof.
  unfold moralis_native_item, moralis_step, strict_eq_string.
  intros H. apply andb_true_iff in H as [-> ->]. cbn. eauto.
Qed.

Lemma moralis_fold_native items :
  forall st,
    (exists n,
        loop_nativeFromMoralis (fold_left moralis_step items st) = Some n)
    <-> (exists n, loop_nativeFromMoralis st = Some n)
        \/ existsb moralis_native_item items = true.
Proof.
  induction items as [|item rest IH]; intros st; cbn.
  - split; [now left | intros [H|H]; [exact H | discriminate]].
  - rewrite IH, moralis_step_native.
    destruct (moralis_native_item item) eqn:Hn; cbn.
    + split; [now right|]. intros _. left.
      exact (moralis_step_native_some item Hn).
    + reflexivity.
Qed.

(** X11: a result of [getMoralisBalances] carries [nativeFromMoralis]
    exactly when the answer holds an item that is flagged [native_token]
    and whose balance is not the string "0": a native token with a zero
    balance is skipped like any other item and is not surfaced. *)
Theorem moralis_native_surfaced
    chainSlug address apiKey w log td calls :
  getMoralisBalances chainSlug address apiKey w log
  = (Returned (Some td), calls) ->
  (exists n, nativeFromMoralis td = Some n)
  <-> existsb moralis_native_item
        (moralis_items (moralis_tokens w chainSlug address apiKey))
      = true.
Proof.
  unfold getMoralisBalances, try_catch, bind, fetch_api, response_json, ret,
    throw, moralis_items.
  destruct (truthy apiKey); cbn; [|discriminate].
  destruct (moralis_tokens w chainSlug address apiKey) as [[o st [j|]]|]; cbn;
    try destruct o; cbn; try discriminate.
  intros H. inversion H; subst. cbn.
  rewrite moralis_fold_native. cbn.
  split; [intros [[n Hn]|Hex]; [discriminate | exact Hex] | now right].
Qed.

Lemma moralis_native_surfaced_witness :
  (exists n, nativeFromMoralis only_native_data = Some n)
  <-> existsb moralis_native_item
        (moralis_items
           (moralis_tokens only_moralis (Some "eth") "0xabc" (Some "m-key")))
      = true.
Proof.
  apply (moralis_native_surfaced (Some "eth") "0xabc" (Some "m-key")
           only_moralis [] only_native_data
           [Call_moralis_tokens (Some "eth") "0xabc" (Some "m-key")]).
  vm_compute. reflexivity.
Defined.

(** ** The two endpoints, for every request *)






(** X13: the guard accepts a request exactly when both parameters are
    present, the address is not empty, and the network is one of the five
    registered names or one of the twelve property names every object
    inherits; the comparison is exact, so another spelling of a
    registered name (an upper-case letter, a trailing blank) is refused. *)
Theorem guard_accepts params :
  passes_validation params = true
  <-> exists network address,
        params !! "network" = Some network
        /\ params !! "address" = Some address
        /\ address <> ""
        /\ (In network ["ethereum"; "polygon"; "binance"; "base"; "solana"]
            \/ In network Object_prototype_properties).
Proof.
  unfold passes_validation. split.
  - destruct (params !! "network") as [network|]; [|discriminate].
    destruct (params !! "address") as [address|]; [|discriminate].
    intros H. apply andb_true_iff in H as [H Hprop].
    apply andb_true_iff in H as [_ Haddr].
    exists network, address. repeat split; try reflexivity.
    + intros ->. discriminate.
    + exact (get_property_truthy _ Hprop).
  - intros (network & address & -> & -> & Haddr & Hin).
    assert (truthy address = true) as ->.
    { unfold truthy, truthy_string. apply negb_true_iff.
      now apply String.eqb_neq. }
    cbn in Hin.
    repeat (destruct Hin as [Hin|Hin]; try contradiction);
      subst network; vm_compute; reflexivity.
Qed.

(** ** The requests a handler sends, and what wins in the merge *)

Lemma balances_full env w params network address c :
  params !! "network" = Some network ->
  params !! "address" = Some address ->
  CHAIN_INFO !! network = Some c ->
  truthy address = true ->
  exists nb td price,
    runs (native_source network c address) w nb
      [native_call network c address]
    /\ runs (token_source env network c address) w td
         (token_calls env network c address)
    /\ runs (getNativePriceUsd (Some (coinGeckoId c))) w price
         [Call_coingecko_price (Some (coinGeckoId c))]
    /\ serve env w (GET "/api/balances" params)
       = (Returned
            {| statusCode := 200;
               content :=
                 BalancesJson
                   (merge network address c nb td
                      (provider_native env network td) price) |},
          (native_call network c address
             :: token_calls env network c address
             ++ [Call_coingecko_price (Some (coinGeckoId c))])%list).
Proof.
  intros Hn Ha Hc Haddr.
  destruct (native_source_runs network c address w) as [nb Hnb].
  destruct (token_source_runs env network c address w) as [td Htd].
  destruct (getNativePriceUsd_runs (Some (coinGeckoId c)) w)
    as [price [Hp _]].
  exists nb, td, price. repeat split; try assumption.
  apply serve_balances.
  exact (api_balances_runs _ _ _ _ _ _ _ _ _ Hn Ha Hc Haddr Hnb Htd Hp).
Qed.

(** X14: a valid balances request sends its upstream requests in a fixed
    order: the RPC of the network first, then the selected provider (if
    one is selected), then the price service, each once, so at most
    three.  A failure of one does not stop the next: the price is looked
    up in every case. *)
Theorem balances_request_order env w params network address c :
  params !! "network" = Some network ->
  params !! "address" = Some address ->
  CHAIN_INFO !! network = Some c ->
  truthy address = true ->
  snd (serve env w (GET "/api/balances" params))
  = (native_call network c address
       :: token_calls env network c address
       ++ [Call_coingecko_price (Some (coinGeckoId c))])%list
  /\ (length (snd (serve env w (GET "/api/balances" params))) <= 3)%nat.
Proof.
  intros Hn Ha Hc Haddr.
  destruct (balances_full env w _ _ _ _ Hn Ha Hc Haddr)
    as (nb & td & price & _ & _ & _ & Hserve).
  rewrite Hserve. cbn [snd]. split; [reflexivity|].
  unfold token_calls. destruct (selected_provider env network) as [[|]|];
    cbn; lia.
Qed.

Lemma balances_request_order_witness :
  snd (serve both_keys offline (GET "/api/balances" (query "ethereum" "0xabc")))
  = (native_call "ethereum" ethereum "0xabc"
       :: token_calls both_keys "ethereum" ethereum "0xabc"
       ++ [Call_coingecko_price (Some (coinGeckoId ethereum))])%list
  /\ (length
        (snd (serve both_keys offline
                (GET "/api/balances" (query "ethereum" "0xabc")))) <= 3)%nat.
Proof.
  apply (balances_request_order both_keys offline (query "ethereum" "0xabc")
           "ethereum" "0xabc" ethereum);
    reflexivity.
Defined.

(** X15: there is no failover between providers.  When the Moralis key is
    configured and Moralis is unavailable, the response has no token list
    and no portfolio total, and Covalent is not queried, also when its
    key is configured. *)
Theorem moralis_failure_is_final
    (env : gmap string string) (w : world) (params : gmap string string)
    (network address : string) (c : chain) :
  params !! "network" = Some network ->
  params !! "address" = Some address ->
  CHAIN_INFO !! network = Some c ->
  truthy address = true ->
  truthy (env !! "MORALIS_API_KEY") = true ->
  unavailable
    (moralis_tokens w (Some (moralisChain c)) address
       (env !! "MORALIS_API_KEY")) = true ->
  exists r calls,
    serve env w (GET "/api/balances" params)
    = (Returned {| statusCode := 200; content := BalancesJson r |}, calls)
    /\ Balances.tokenBalances r = None
    /\ Balances.tokenPortfolioValueUsd r = None
    /\ existsb is_covalent_call calls = false.
Proof.
  intros Hn Ha Hc Haddr Hm Hdown.
  destruct (balances_full env w _ _ _ _ Hn Ha Hc Haddr)
    as (nb & td & price & _ & Htd & _ & Hserve).
  assert (td = None) as ->.
  { apply (token_source_unavailable _ _ _ _ _ _ _ Htd).
    unfold tokens_unavailable, selected_provider. now rewrite Hm. }
  eexists _, _. split; [exact Hserve|].
  split; [reflexivity|]. split; [reflexivity|].
  unfold token_calls, native_call, selected_provider. rewrite Hm.
  now destruct (String.eqb network "solana").
Qed.

Lemma moralis_failure_is_final_witness :
  exists r calls,
    serve both_keys offline (GET "/api/balances" (query "ethereum" "0xabc"))
    = (Returned {| statusCode := 200; content := BalancesJson r |}, calls)
    /\ Balances.tokenBalances r = None
    /\ Balances.tokenPortfolioValueUsd r = None
    /\ existsb is_covalent_call calls = false.
Proof.
  apply (moralis_failure_is_final both_keys offline
           (query "ethereum" "0xabc") "ethereum" "0xabc" ethereum);
    reflexivity.
Defined.

(** X19: the RPC figure takes precedence.  When the RPC adapter returns a
    number that is not [NaN], the response's [nativeBalance] is that
    number, whatever native balance the provider surfaced. *)
Theorem rpc_balance_takes_precedence env w params network address c b :
  params !! "network" = Some network ->
  params !! "address" = Some address ->
  CHAIN_INFO !! network = Some c ->
  truthy address = true ->
  outcome (native_source network c address) w = Returned (Some b) ->
  isNaN b = false ->
  exists r calls,
    serve env w (GET "/api/balances" params)
    = (Returned {| statusCode := 200; content := BalancesJson r |}, calls)
    /\ Balances.nativeBalance r = Some b.
Proof.
  intros Hn Ha Hc Haddr Hnb Hnan.
  destruct (balances_full env w _ _ _ _ Hn Ha Hc Haddr)
    as (nb & td & price & Hnb' & _ & _ & Hserve).
  rewrite (runs_outcome _ _ _ _ Hnb') in Hnb. inversion Hnb; subst nb.
  eexists _, _. split; [exact Hserve|]. cbn. now rewrite Hnan.
Qed.

Lemma rpc_balance_takes_precedence_witness :
  exists r calls,
    serve moralis_key disagreeing_sources
      (GET "/api/balances" (query "ethereum" "0xabc"))
    = (Returned {| statusCode := 200; content := BalancesJson r |}, calls)
    /\ Balances.nativeBalance r = Some 0.5%float.
Proof.
  apply (rpc_balance_takes_precedence moralis_key disagreeing_sources
           (query "ethereum" "0xabc") "ethereum" "0xabc" ethereum 0.5%float);
    reflexivity.
Defined.

Lemma token_source_total env network c address w t calls :
  runs (token_source env network c address) w (Some t) calls ->
  portfolioValueUsd t = sum_quotes (tokens t).
Proof.
  intros H. specialize (H []). unfold token_source in H.
  destruct (selected_provider env network) as [[|]|].
  - exact (getMoralisBalances_total _ _ _ _ _ _ _ H).
  - exact (getCovalentBalances_total _ _ _ _ _ _ _ H).
  - discriminate.
Qed.

(** X20: in the response to a valid balances request, a token list comes
    with the total of its own quotes: when [tokenBalances] is a list,
    [tokenPortfolioValueUsd] is the sum of the [quote]s of that list,
    added in order from 0. *)
Theorem response_total_is_sum_of_list env w params network address c :
  params !! "network" = Some network ->
  params !! "address" = Some address ->
  CHAIN_INFO !! network = Some c ->
  truthy address = true ->
  exists r calls,
    serve env w (GET "/api/balances" params)
    = (Returned {| statusCode := 200; content := BalancesJson r |}, calls)
    /\ forall ts,
         Balances.tokenBalances r = Some ts ->
         Balances.tokenPortfolioValueUsd r = Some (sum_quotes ts).
Proof.
  intros Hn Ha Hc Haddr.
  destruct (balances_full env w _ _ _ _ Hn Ha Hc Haddr)
    as (nb & td & price & _ & Htd & _ & Hserve).
  eexists _, _. split; [exact Hserve|]. cbn.
  destruct td as [t|]; cbn; [|discriminate].
  intros ts Hts. inversion Hts; subst ts.
  now rewrite (token_source_total _ _ _ _ _ _ _ Htd).
Qed.

Lemma response_total_is_sum_of_list_witness :
  exists r calls,
    serve covalent_key covalent_portfolio
      (GET "/api/balances" (query "ethereum" "0xabc"))
    = (Returned {| statusCode := 200; content := BalancesJson r |}, calls)
    /\ forall ts,
         Balances.tokenBalances r = Some ts ->
         Balances.tokenPortfolioValueUsd r = Some (sum_quotes ts).
Proof.
  apply (response_total_is_sum_of_list covalent_key covalent_portfolio
           (query "ethereum" "0xabc") "ethereum" "0xabc" ethereum);
    reflexivity.
Defined.


Lemma runs_bind_ret {A B} (m : M A) (f : A -> B) w a calls :
  runs m w a calls -> runs (bind m (fun x => ret (f x))) w (f a) calls.
Proof.
  intros H. rewrite <- (app_nil_r calls).
  eapply runs_bind; [exact H | apply runs_ret].
Qed.

Lemma api_transactions_trace env w params network address c :
  params !! "network" = Some network ->
  params !! "address" = Some address ->
  CHAIN_INFO !! network = Some c ->
  truthy address = true ->
  exists txs,
    serve env w (GET "/api/transactions" params)
    = (Returned
         {| statusCode := 200;
            content :=
              TransactionsJson
                {| Transactions.network := network;
                   Transactions.address := address;
                   Transactions.transactions := txs |} |},
       transaction_calls env network c address)
    /\ (transactions_unavailable env w network c address = true ->
        txs = None).
Proof.
  intros Hn Ha Hc Haddr.
  assert (exists txs,
             runs (api_transactions env params) w
               {| statusCode := 200;
                  content :=
                    TransactionsJson
                      {| Transactions.network := network;
                         Transactions.address := address;
                         Transactions.transactions := txs |} |}
               (transaction_calls env network c address)
             /\ (transactions_unavailable env w network c address = true ->
                 txs = None)) as (txs & Hrun & Hnone).
  { unfold api_transactions, transactions_unavailable, transaction_calls.
    rewrite Hn, Ha, Haddr.
    rewrite (CHAIN_INFO_key_truthy _ _ Hc), (get_property_own _ _ _ Hc).
    cbn [negb orb truthy truthy_property field].
    destruct (String.eqb network "solana").
    - destruct (getSolanaSignatures_runs (rpc c) address w) as [r [H Hnone]].
      exists (Signatures <$> r). split.
      + apply runs_bind_ret
          with (f := fun txs =>
                       {| statusCode := 200;
                          content :=
                            TransactionsJson
                              {| Transactions.network := network;
                                 Transactions.address := address;
                                 Transactions.transactions := txs |} |}).
        apply runs_bind_ret. exact H.
      + intros Hu. now rewrite (Hnone Hu).
    - destruct (truthy (env !! "MORALIS_API_KEY")) eqn:Hm.
      + destruct (getMoralisTransactions_runs (Some (moralisChain c)) address
                    _ w Hm) as [r [H Hnone]].
        exists (MoralisTransactions <$> r). split.
        * apply runs_bind_ret
          with (f := fun txs =>
                       {| statusCode := 200;
                          content :=
                            TransactionsJson
                              {| Transactions.network := network;
                                 Transactions.address := address;
                                 Transactions.transactions := txs |} |}).
        apply runs_bind_ret. exact H.
        * intros Hu. now rewrite (Hnone Hu).
      + destruct (truthy (env !! "COVALENT_API_KEY")) eqn:Hk.
        * destruct (getCovalentTransactions_runs (Some (chainId c)) address
                      _ w Hk) as [r [H Hnone]].
          exists (CovalentTransactions <$> r). split.
          -- apply runs_bind_ret
          with (f := fun txs =>
                       {| statusCode := 200;
                          content :=
                            TransactionsJson
                              {| Transactions.network := network;
                                 Transactions.address := address;
                                 Transactions.transactions := txs |} |}).
        apply runs_bind_ret. exact H.
          -- intros Hu. now rewrite (Hnone Hu).
        * exists None. split; [|reflexivity].
          apply runs_bind_ret
          with (f := fun txs =>
                       {| statusCode := 200;
                          content :=
                            TransactionsJson
                              {| Transactions.network := network;
                                 Transactions.address := address;
                                 Transactions.transactions := txs |} |}).
          apply runs_ret. }
  exists txs. split; [exact (serve_transactions _ _ _ _ _ Hrun)|exact Hnone].
Qed.



(** X17: a valid transactions request sends at most one upstream request:
    for Solana the signature request to the RPC, whatever keys are
    configured; for an EVM network the history request to Moralis when
    its key is configured, otherwise to Covalent when its key is,
    otherwise none. *)
Theorem transactions_request_trace env w params network address c :
  params !! "network" = Some network ->
  params !! "address" = Some address ->
  CHAIN_INFO !! network = Some c ->
  truthy address = true ->
  snd (serve env w (GET "/api/transactions" params))
  = transaction_calls env network c address
  /\ (length (snd (serve env w (GET "/api/transactions" params))) <= 1)%nat
  /\ (String.eqb network "solana" = true ->
      snd (serve env w (GET "/api/transactions" params))
      = [Call_getSignaturesForAddress (rpc c) address]).
Proof.
  intros Hn Ha Hc Haddr.
  destruct (api_transactions_trace env w _ _ _ _ Hn Ha Hc Haddr)
    as (txs & Hserve & _).
  rewrite Hserve. cbn [snd]. split; [reflexivity|].
  unfold transaction_calls. split.
  - destruct (String.eqb network "solana"),
      (truthy (env !! "MORALIS_API_KEY")),
      (truthy (env !! "COVALENT_API_KEY")); cbn; lia.
  - now intros ->.
Qed.

Lemma transactions_request_trace_witness :
  snd (serve both_keys offline
         (GET "/api/transactions" (query "solana" "So1ana")))
  = transaction_calls both_keys "solana" solana "So1ana"
  /\ (length
        (snd (serve both_keys offline
                (GET "/api/transactions" (query "solana" "So1ana"))))
      <= 1)%nat
  /\ (String.eqb "solana" "solana" = true ->
      snd (serve both_keys offline
             (GET "/api/transactions" (query "solana" "So1ana")))
      = [Call_getSignaturesForAddress (rpc solana) "So1ana"]).
Proof.
  apply (transactions_request_trace both_keys offline
           (query "solana" "So1ana") "solana" "So1ana" solana);
    reflexivity.
Defined.

(** X18: no failover for the history either.  On an EVM network with the
    Moralis key configured, an unavailable Moralis leaves [transactions]
    [null] and Covalent is not queried, also when its key is
    configured. *)
Theorem moralis_history_failure_is_final
    (env : gmap string string) (w : world) (params : gmap string string)
    (network address : string) (c : chain) :
  params !! "network" = Some network ->
  params !! "address" = Some address ->
  CHAIN_INFO !! network = Some c ->
  truthy address = true ->
  String.eqb network "solana" = false ->
  truthy (env !! "MORALIS_API_KEY") = true ->
  unavailable
    (moralis_history w (Some (moralisChain c)) address
       (env !! "MORALIS_API_KEY")) = true ->
  exists t calls,
    serve env w (GET "/api/transactions" params)
    = (Returned {| statusCode := 200; content := TransactionsJson t |}, calls)
    /\ Transactions.transactions t = None
    /\ existsb is_covalent_call calls = false.
Proof.
  intros Hn Ha Hc Haddr Hevm Hm Hdown.
  destruct (api_transactions_trace env w _ _ _ _ Hn Ha Hc Haddr)
    as (txs & Hserve & Hnone).
  eexists _, _. split; [exact Hserve|]. cbn. split.
  - apply Hnone. unfold transactions_unavailable. now rewrite Hevm, Hm.
  - unfold transaction_calls. now rewrite Hevm, Hm.
Qed.

Lemma moralis_history_failure_is_final_witness :
  exists t calls,
    serve both_keys offline
      (GET "/api/transactions" (query "ethereum" "0xabc"))
    = (Returned {| statusCode := 200; content := TransactionsJson t |}, calls)
    /\ Transactions.transactions t = None
    /\ existsb is_covalent_call calls = false.
Proof.
  apply (moralis_history_failure_is_final both_keys offline
           (query "ethereum" "0xabc") "ethereum" "0xabc" ethereum);
    reflexivity.
Defined.

(** X21: only GET reaches the API.  A request to either API route with
    another method (other than OPTIONS, which is answered 204) falls
    through to the file routes, matches none, and is answered 404 with
    nothing sent upstream. *)
Theorem only_get_reaches_api env w m path params :
  api_path path = true ->
  String.eqb m "GET" = false ->
  String.eqb m "OPTIONS" = false ->
  serve env w {| method := m; pathname := path; searchParams := params |}
  = (Returned {| statusCode := 404; content := ErrorJson "Not Found" |}, []).
Proof.
  intros Hpath Hget Hopt.
  unfold api_path in Hpath. apply orb_true_iff in Hpath as [Hpath|Hpath];
    apply String.eqb_eq in Hpath; subst path;
    unfold serve, handleRequest, try_catch;
    cbn [method pathname searchParams]; rewrite Hopt, Hget; reflexivity.
Qed.

Lemma only_get_reaches_api_witness :
  serve both_keys offline
    {| method := "POST"; pathname := "/api/balances";
       searchParams := query "ethereum" "0xabc" |}
  = (Returned {| statusCode := 404; content := ErrorJson "Not Found" |}, []).
Proof.
  apply (only_get_reaches_api both_keys offline "POST" "/api/balances"
           (query "ethereum" "0xabc"));
    reflexivity.
Defined.
